(** * pl/interface.py: run-time interface contracts

    A shallow embedding of [src/pl/interface.py] (Python 2): the rule
    classes [_IValue], [IList], [IOption], the method rule [_IFunction], the
    decorator [returns], the call wrapper built by [_check_method_IO], the
    metaclass [_Interface] with its two class-level dictionaries [rules] and
    [inst_cls], and the attribute hooks of [BaseInterface].

    Python dictionaries are finite maps ([gmap]); the [_IRule] objects live
    in an explicit object store because [inst_cls] and [rules] refer to the
    same objects.  Exceptions are values of [Result]. *)

From stdpp Require Import gmap strings list.
From Stdlib Require Import ZArith.

Open Scope Z_scope.
Open Scope string_scope.

(** ** Python values *)

(** The run-time types the model distinguishes.  Python 2 has two integer
    types, [int] and [long].  [T_Interface] is the metaclass [_Interface];
    [T_class c] is a class named [c] whose type is [type], [T_iclass c] a
    class named [c] made by the metaclass (an interface or a class derived
    from one), whose type is [_Interface]. *)
Inductive PyType :=
| T_NoneType
| T_bool
| T_int
| T_long
| T_str
| T_list
| T_type
| T_Interface
| T_class (name : string)
| T_iclass (name : string).

#[global] Instance PyType_eq_dec : EqDecision PyType.
Proof. solve_decision. Defined.

(** Data values: what is passed to methods, returned by them and stored in
    instance attributes.  [VInt] is a machine integer and [VLong] a Python 2
    [long]; [VInst c a] is the instance at address [a] of a user class [c]
    and [VBound c a] the instance at address [a] of a class [c] made by the
    metaclass (classes that do not redefine [__eq__]). *)
#[warnings="-register-all"]
Inductive Value :=
| VNone
| VBool (b : bool)
| VInt (z : Z)
| VLong (z : Z)
| VStr (s : string)
| VList (l : list Value)
| VType (t : PyType)
| VInst (cls : string) (addr : nat)
| VBound (cls : string) (addr : nat).

(** [type(v)] *)
Definition type_of (v : Value) : PyType :=
  match v with
  | VNone => T_NoneType
  | VBool _ => T_bool
  | VInt _ => T_int
  | VLong _ => T_long
  | VStr _ => T_str
  | VList _ => T_list
  | VType (T_iclass _) => T_Interface
  | VType _ => T_type
  | VInst c _ => T_class c
  | VBound c _ => T_iclass c
  end.

(** The number a value stands for in a comparison, if it is one. *)
Definition numeric (v : Value) : option Z :=
  match v with
  | VBool b => Some (Z.b2z b)
  | VInt z | VLong z => Some z
  | _ => None
  end.

(** [a == b] on values that are not both lists: numbers (booleans
    included) compare by value, strings structurally, [None], types and
    instances by identity. *)
Definition py_eq_atom (a b : Value) : bool :=
  match numeric a, numeric b with
  | Some x, Some y => bool_decide (x = y)
  | None, None =>
      match a, b with
      | VNone, VNone => true
      | VStr x, VStr y => bool_decide (x = y)
      | VType s, VType t => bool_decide (s = t)
      | VInst c i, VInst d j => bool_decide (c = d) && bool_decide (i = j)
      | VBound c i, VBound d j => bool_decide (c = d) && bool_decide (i = j)
      | _, _ => false
      end
  | _, _ => false
  end.

(** [a == b]; lists compare element by element. *)
Fixpoint py_eq (a b : Value) {struct a} : bool :=
  match a, b with
  | VList xs, VList ys =>
      (fix go (xs ys : list Value) {struct xs} : bool :=
         match xs, ys with
         | [], [] => true
         | x :: xs', y :: ys' => py_eq x y && go xs' ys'
         | _, _ => false
         end) xs ys
  | _, _ => py_eq_atom a b
  end.

(** [x in xs] on a tuple *)
Definition py_in (x : Value) (xs : list Value) : bool :=
  existsb (py_eq x) xs.

(** ** Exceptions *)

Inductive ExcClass :=
| InterfaceError
| InterfaceValueError
| InterfaceInputValueError
| InterfaceOutputValueError
| TypeError
| AttributeError
| KeyError
| ValueError.

#[global] Instance ExcClass_eq_dec : EqDecision ExcClass.
Proof. solve_decision. Defined.

(** [issubclass(c, d)] for the hierarchy of the module:
    Input/Output errors derive from [InterfaceValueError], which derives
    from [InterfaceError]. *)
Definition issubclass (c d : ExcClass) : bool :=
  match c, d with
  | InterfaceInputValueError, (InterfaceValueError | InterfaceError) => true
  | InterfaceOutputValueError, (InterfaceValueError | InterfaceError) => true
  | InterfaceValueError, InterfaceError => true
  | _, _ => bool_decide (c = d)
  end.

(** The [required] text handed to an exception, kept structured; each
    constructor stands for one format string of the source. *)
Inductive Required :=
| req_type (t : PyType)                (* "%s is required" % str(self.TYPE) *)
| req_list                             (* "type of list is required" *)
| req_one_of (opts : list Value)       (* "one of %s" % str(self.OPTIONS) *)
| req_type_value                       (* "type value is required." *)
| req_one_arg                          (* "one arg for list typ is required." *)
| req_IOption_args                     (* the usage text of IOption *)
| req_input_error                      (* "input error" *)
| req_output_error                     (* "output error" *)
| req_return_type_def                  (* "return type def is wrong" *)
| req_missing (k : string)             (* "MISSING: %s() is not defined." % k *)
| req_valid_args (k : string) (a : list string)
                                       (* "the valid args for %s() should be %s(%s)" *)
| req_read_only (name : string)        (* "'%s' is read-only attribute" % name *)
| req_not_available (name : string)    (* "attribute '%s' is not available" % name *)
| req_other.                           (* messages of InterfaceError and builtins *)

(** An exception: its class, the [ErrorIn] line (class and function name,
    empty when no function was given) and the [required] text. *)
Record Exn := mkExn {
  exc_class : ExcClass;
  err_in : option (string * string);
  required : Required
}.

Inductive Result (A : Type) :=
| Ok (a : A)
| Raise (e : Exn).
Arguments Ok {A} a.
Arguments Raise {A} e.

(** The names used by the specification for the errors of this module. *)
Definition InputValueError : Exn :=
  mkExn InterfaceInputValueError None req_input_error.
Definition OutputValueError : Exn :=
  mkExn InterfaceOutputValueError None req_output_error.
Definition MissingMethodError (k : string) : Exn :=
  mkExn InterfaceValueError None (req_missing k).
Definition SignatureMismatchError (k : string) (valid_IN : list string) : Exn :=
  mkExn InterfaceValueError None (req_valid_args k valid_IN).
Definition ReadOnlyPropertyError (name : string) : Exn :=
  mkExn InterfaceValueError None (req_read_only name).
Definition UndeclaredAttributeError (name : string) : Exn :=
  mkExn InterfaceValueError None (req_not_available name).

(** ** Rule objects *)

(** The first argument [f] of [validate]: the wrapped function (known by its
    [__bind_cls__], when attached, and its [__name__]) on a method call, the
    attribute name on a property assignment. *)
Inductive Ctx :=
| ctx_function (bind_cls : option string) (name : string)
| ctx_name (name : string).

(** [isinstance(f, types.FunctionType)] *)
Definition is_function (f : Ctx) : bool :=
  match f with ctx_function _ _ => true | ctx_name _ => false end.

(** [InterfaceError.get_func]: reads [f.__bind_cls__] and [f.__name__]. *)
Definition get_func (f : Ctx) : Result (string * string) :=
  match f with
  | ctx_function (Some c) n => Ok (c, n)
  | _ => Raise (mkExn AttributeError None req_other)
  end.

(** The exception that [raise InterfaceValueError(func_obj, required)]
    propagates: building the message calls [get_func] when a function object
    is given, and that call can fail itself. *)
Definition raise_InterfaceValueError (func_obj : option Ctx) (rq : Required) : Exn :=
  match func_obj with
  | None => mkExn InterfaceValueError None rq
  | Some f =>
      match get_func f with
      | Ok where_ => mkExn InterfaceValueError (Some where_) rq
      | Raise e => e
      end
  end.

(** Instances of [_IValue], [IList] ([ls]) and [IOption] ([opt]). *)
Inductive Constraint :=
| _IValue (TYPE : PyType)
| IList (TYPE : PyType)
| IOption (OPTIONS : list Value).

(** [_IValue.validate] *)
Definition _IValue_validate (TYPE : PyType) (f : Ctx) (input : Value) : Result unit :=
  if decide (type_of input ≠ TYPE) then
    let f' := if is_function f then Some f else None in
    Raise (raise_InterfaceValueError f' (req_type TYPE))
  else Ok tt.

(** The loop [for el in input: super(IList, self).validate(f, el)] *)
Fixpoint validate_each (TYPE : PyType) (f : Ctx) (input : list Value) : Result unit :=
  match input with
  | [] => Ok tt
  | el :: rest =>
      match _IValue_validate TYPE f el with
      | Ok _ => validate_each TYPE f rest
      | Raise e => Raise e
      end
  end.

(** [IList.validate]: here [f] is passed on as it is. *)
Definition IList_validate (TYPE : PyType) (f : Ctx) (input : Value) : Result unit :=
  match input with
  | VList els => validate_each TYPE f els
  | _ => Raise (raise_InterfaceValueError (Some f) req_list)
  end.

(** [IOption.validate] *)
Definition IOption_validate (OPTIONS : list Value) (f : Ctx) (input : Value) : Result unit :=
  if negb (py_in input OPTIONS) then
    let f' := if is_function f then Some f else None in
    Raise (raise_InterfaceValueError f' (req_one_of OPTIONS))
  else Ok tt.

(** [rule.validate(f, input)], dispatched on the class of [rule]. *)
Definition validate (rule : Constraint) (f : Ctx) (input : Value) : Result unit :=
  match rule with
  | _IValue T => _IValue_validate T f input
  | IList T => IList_validate T f input
  | IOption opts => IOption_validate opts f input
  end.

(** An object that can be bound in a class body or given as a parameter
    default: a rule object or a plain value (a bare type is the plain value
    [VType t]). *)
Inductive PyObj :=
| Rule (c : Constraint)
| Plain (v : Value).

(** [type(v) == type]: [v] is a class whose type is [type], be it a
    builtin type or a user class; a class made by the metaclass is not. *)
Definition bare_type (v : PyObj) : option PyType :=
  match v with
  | Plain (VType t) =>
      if decide (type_of (VType t) = T_type) then Some t else None
  | _ => None
  end.

(** The check of [_IValue.__init__]: [type(typ)] must be [type] or
    [_Interface]. *)
Definition check_typ (typ : PyObj) : Result PyType :=
  match typ with
  | Plain (VType t) => Ok t
  | _ => Raise (mkExn InterfaceValueError None req_type_value)
  end.

Definition _IValue_init (typ : PyObj) : Result Constraint :=
  match check_typ typ with
  | Ok t => Ok (_IValue t)
  | Raise e => Raise e
  end.

(** [IList.__init__] takes exactly one argument and hands it to
    [_IValue.__init__]. *)
Definition IList_init (typ : list PyObj) : Result Constraint :=
  match typ with
  | [t] =>
      match check_typ t with
      | Ok T => Ok (IList T)
      | Raise e => Raise e
      end
  | _ => Raise (mkExn InterfaceValueError None req_one_arg)
  end.

Definition IOption_init (args : list Value) : Result Constraint :=
  match args with
  | [] => Raise (mkExn InterfaceValueError None req_IOption_args)
  | _ => Ok (IOption args)
  end.

(** ** Method rules *)

(** [_IFunction]: the input rules in declaration order and the output rule. *)
Record IFunction := mkIFunction {
  IN : list (string * Constraint);
  OUT : Constraint
}.

(** ** Functions and the call wrapper *)

Section Functions.

(** Everything a method body can read and change besides its result. *)
Context {World : Type}.

(** A Python function object, as far as this module looks at it:
    [co_args] is [inspect.getargspec(f).args] (receiver first),
    [func_defaults] is [inspect.getargspec(f).defaults] ([None] when no
    parameter has a default), [__returns__], [__rule__] and [__bind_cls__]
    are the attributes the module attaches, and [call] runs the body on the
    positional and keyword arguments. *)
Record function := mkFunction {
  __name__ : string;
  co_args : list string;
  func_defaults : option (list PyObj);
  __returns__ : option Constraint;
  __rule__ : option IFunction;
  __bind_cls__ : option string;
  call : list Value → gmap string Value → World → Result Value * World
}.

(** The decorator [returns(rtype)] applied to [f]. *)
Definition returns (rtype : PyObj) (f : function) : Result function :=
  let set r := mkFunction (__name__ f) (co_args f) (func_defaults f) (Some r)
                          (__rule__ f) (__bind_cls__ f) (call f) in
  match bare_type rtype, rtype with
  | Some t, _ => Ok (set (_IValue t))
  | None, Rule (IList T) => Ok (set (IList T))
  | None, Rule (IOption opts) => Ok (set (IOption opts))
  | None, _ => Raise (mkExn InterfaceOutputValueError None req_return_type_def)
  end.

(** [_IFunction._get_args]: parameter names after the receiver, zipped with
    the defaults.  With parameters but no default at all, [zip] is applied
    to [None]. *)
Definition _get_args (f : function) : Result (list (string * PyObj)) :=
  match tail (co_args f) with
  | [] => Ok []
  | arg_names =>
      match func_defaults f with
      | Some arg_values => Ok (zip arg_names arg_values)
      | None => Raise (mkExn TypeError None req_other)
      end
  end.

(** The loop of [_IFunction.__init__] over [self.IN]: a bare type becomes an
    [_IValue], an [IList] or [IOption] stays, anything else is refused. *)
Fixpoint wrap_IN (args : list (string * PyObj)) : Result (list (string * Constraint)) :=
  match args with
  | [] => Ok []
  | (arg, v) :: rest =>
      let continue_with c :=
        match wrap_IN rest with
        | Ok rest' => Ok ((arg, c) :: rest')
        | Raise e => Raise e
        end in
      match bare_type v, v with
      | Some t, _ => continue_with (_IValue t)
      | None, Rule (IList T) => continue_with (IList T)
      | None, Rule (IOption opts) => continue_with (IOption opts)
      | None, _ => Raise (mkExn InterfaceError None req_other)
      end
  end.

(** [_IFunction(obj)] *)
Definition _IFunction (obj : function) : Result IFunction :=
  match _get_args obj with
  | Raise e => Raise e
  | Ok args =>
      match wrap_IN args with
      | Raise e => Raise e
      | Ok IN_ =>
          Ok (mkIFunction IN_
                (match __returns__ obj with
                 | Some r => r
                 | None => _IValue T_NoneType
                 end))
      end
  end.

(** How [new_f] hands the function to [validate]. *)
Definition as_ctx (f : function) : Ctx :=
  ctx_function (__bind_cls__ f) (__name__ f).

(** The input loop of [new_f]:
    [for rule, input in zip(rules, args[1:])] with its [try]/[except]. *)
Fixpoint check_inputs (f : Ctx) (pairs : list (Constraint * Value)) : Result unit :=
  match pairs with
  | [] => Ok tt
  | (rule, input) :: rest =>
      match validate rule f input with
      | Ok _ => check_inputs f rest
      | Raise e =>
          if issubclass (exc_class e) InterfaceValueError
          then Raise InputValueError
          else Raise e
      end
  end.

(** The output check of [new_f] with its [try]/[except]. *)
Definition check_output (f : Ctx) (out : Constraint) (result : Value) : Result Value :=
  match validate out f result with
  | Ok _ => Ok result
  | Raise e =>
      if issubclass (exc_class e) InterfaceValueError
      then Raise OutputValueError
      else Raise e
  end.

(** [new_f], the wrapper that [_check_method_IO(f)] returns.  [args]
    starts with the receiver. *)
Definition new_f (f : function) (args : list Value) (kwrd : gmap string Value)
    (w : World) : Result Value * World :=
  match __rule__ f with
  | None => (Raise (mkExn AttributeError None req_other), w)
  | Some rule =>
      let rules := (IN rule).*2 in
      match check_inputs (as_ctx f) (zip rules (tail args)) with
      | Raise e => (Raise e, w)
      | Ok _ =>
          match call f args kwrd w with
          | (Raise e, w') => (Raise e, w')
          | (Ok result, w') => (check_output (as_ctx f) (OUT rule) result, w')
          end
      end
  end.

End Functions.

Arguments function : clear implicits.

(** ** The registry of the metaclass *)

(** [_IRule]: method rules [m] and property rules [p] of one interface.  A
    property rule is a rule object or, for a read-only attribute, the plain
    value itself. *)
Record IRule := mkIRule {
  m : gmap string IFunction;
  p : gmap string PyObj
}.

(** The class attributes of [_Interface].  [store] holds the [_IRule]
    objects; [rules] (by interface name) and [inst_cls] (by concrete class
    name) hold references into it, so that both see a later change of the
    object they share. *)
Record Registry := mkRegistry {
  store : list IRule;
  rules : gmap string nat;
  inst_cls : gmap string nat
}.

Definition empty_registry : Registry := mkRegistry [] ∅ ∅.

(** [cls.rules[name]] and [cls.inst_cls[name]], dereferenced. *)
Definition rules_of (st : Registry) (name : string) : option IRule :=
  match rules st !! name with
  | Some l => store st !! l
  | None => None
  end.

Definition inst_cls_of (st : Registry) (name : string) : option IRule :=
  match inst_cls st !! name with
  | Some l => store st !! l
  | None => None
  end.

(** Computations that read and change the registry and may raise. *)
Definition M (A : Type) : Type := Registry → Result A * Registry.

#[global] Instance M_ret : MRet M := λ A a st, (Ok a, st).
#[global] Instance M_bind : MBind M := λ A B k c st,
  match c st with
  | (Ok a, st') => k a st'
  | (Raise e, st') => (Raise e, st')
  end.

Definition throw {A} (e : Exn) : M A := λ st, (Raise e, st).
Definition lift {A} (r : Result A) : M A := λ st, (r, st).
Definition get_registry : M Registry := λ st, (Ok st, st).
Definition put_registry (st' : Registry) : M unit := λ _, (Ok tt, st').

(** A dictionary lookup that raises [KeyError]. *)
Definition getitem {A} (o : option A) : M A :=
  match o with
  | Some a => mret a
  | None => throw (mkExn KeyError None req_other)
  end.

(** A [for] loop that threads an accumulator and stops at the first
    exception. *)
Fixpoint for_each {A B} (body : B → A → M B) (acc : B) (l : list A) : M B :=
  match l with
  | [] => mret acc
  | x :: rest => acc' ← body acc x; for_each body acc' rest
  end.

Section Classes.

Context {World : Type}.

(** What a class body binds a name to.  The bodies considered bind none
    of the names through which the metaclass reaches its own attributes
    ([rules], [inst_cls], [_establish_rules], [_apply_rules_to_method]). *)
Inductive Entry :=
| Function (f : function World)
| Object (o : PyObj).

(** What a class attribute holds once the metaclass is done: the entry of
    the class body, the wrapper [new_f] around a function of the body, or
    the constructor [def __init__(obj): pass] made by the metaclass. *)
Inductive Attr :=
| Raw (e : Entry)
| Wrapper (f : function World)
| default_init.

(** [_IValue(v) if type(v) == type else v] *)
Definition as_property_rule (v : PyObj) : PyObj :=
  match bare_type v with
  | Some t => Rule (_IValue t)
  | None => v
  end.

(** One round of the loop of [_establish_rules] for the entry [(k, v)];
    [cls] is the dictionary of the class being created. *)
Definition establish_entry (name : string) (cls : gmap string Attr)
    (kv : string * Entry) : M (gmap string Attr) :=
  let '(k, v) := kv in
  st ← get_registry;
  l ← getitem (rules st !! name);
  r ← getitem (store st !! l);
  if decide (is_Some (m r !! k)) then mret cls
  else
    match v with
    | Function f =>
        rule ← lift (_IFunction f);
        put_registry (mkRegistry (<[l := mkIRule (<[k := rule]> (m r)) (p r)]> (store st))
                                 (rules st) (inst_cls st));;
        mret cls
    | Object o =>
        if negb (String.prefix "__" k) then
          put_registry (mkRegistry (<[l := mkIRule (m r) (<[k := as_property_rule o]> (p r))]> (store st))
                                   (rules st) (inst_cls st));;
          mret (delete k cls)
        else mret cls
    end.

(** [_Interface._establish_rules] for the class called [name]. *)
Definition _establish_rules (name : string) (cls : gmap string Attr)
    (namespace : gmap string Entry) : M (gmap string Attr) :=
  st ← get_registry;
  (if decide (is_Some (rules st !! name)) then mret tt
   else put_registry (mkRegistry (store st ++ [mkIRule ∅ ∅])
                                 (<[name := length (store st)]> (rules st))
                                 (inst_cls st)));;
  for_each (establish_entry name) cls (map_to_list namespace).

(** One round of the loop of [_apply_rules_to_method] for the method name
    [k]; [r] is [cls.inst_cls[cls.__name__]], which the loop does not
    change. *)
Definition apply_rule (name : string) (r : IRule) (namespace : gmap string Entry)
    (cls : gmap string Attr) (k : string) : M (gmap string Attr) :=
  match namespace !! k with
  | None => throw (raise_InterfaceValueError None (req_missing k))
  | Some (Object _) => mret cls
  | Some (Function f) =>
      let current_IN := tail (co_args f) in
      rule ← getitem (m r !! k);
      let valid_IN := (IN rule).*1 in
      if decide (valid_IN ≠ current_IN) then
        throw (raise_InterfaceValueError None (req_valid_args k valid_IN))
      else
        let f' := mkFunction (__name__ f) (co_args f) (func_defaults f)
                             (__returns__ f) (Some rule) (Some name) (call f) in
        mret (<[k := Wrapper f']> cls)
  end.

(** [_Interface._apply_rules_to_method] for the class called [name] with
    base classes [bases]. *)
Definition _apply_rules_to_method (name : string) (bases : list string)
    (cls : gmap string Attr) (namespace : gmap string Entry) : M (gmap string Attr) :=
  base ← match bases with
         | [b] => mret b
         | _ => throw (mkExn ValueError None req_other)
         end;
  st ← get_registry;
  (if decide (is_Some (inst_cls st !! name)) then mret tt
   else
     l ← getitem (rules st !! base);
     put_registry (mkRegistry (store st) (rules st) (<[name := l]> (inst_cls st))));;
  st ← get_registry;
  r ← getitem (inst_cls_of st name);
  let cls := if decide (m r !! "__init__" = None)
             then <["__init__" := default_init]> cls
             else cls in
  for_each (apply_rule name r namespace) cls (map_to_list (m r)).*1.

(** [_Interface.__new__]: the class dictionary starts as the class body. *)
Definition __new__ (name : string) (bases : list string)
    (namespace : gmap string Entry) : M (gmap string Attr) :=
  let cls := Raw <$> namespace in
  if decide (name = "BaseInterface") then mret cls
  else if decide ("BaseInterface" ∈ bases) then _establish_rules name cls namespace
  else _apply_rules_to_method name bases cls namespace.

End Classes.

Arguments Entry : clear implicits.
Arguments Attr : clear implicits.

(** ** Attribute access on instances *)

(** An instance: the name of its class and its [__dict__]. *)
Record Instance := mkInstance {
  __class__ : string;
  __dict__ : gmap string Value
}.

Section Attributes.

(** The result of calling a class, given as [T_class c] or [T_iclass c],
    with no argument. *)
Variable construct : PyType → Result Value.

(** [TYPE()]: the call of a type with no argument. *)
Definition call_type (TYPE : PyType) : Result Value :=
  match TYPE with
  | T_bool => Ok (VBool false)
  | T_int => Ok (VInt 0)
  | T_long => Ok (VLong 0)
  | T_str => Ok (VStr "")
  | T_list => Ok (VList [])
  | T_NoneType | T_type | T_Interface => Raise (mkExn TypeError None req_other)
  | T_class _ | T_iclass _ => construct TYPE
  end.

(** [BaseInterface.__setattr__] *)
Definition __setattr__ (st : Registry) (self : Instance) (name : string)
    (value : Value) : Result unit * Instance :=
  let cls_name := __class__ self in
  let assign := mkInstance cls_name (<[name := value]> (__dict__ self)) in
  match inst_cls_of st cls_name with
  | None => (Raise (mkExn KeyError None req_other), self)
  | Some r =>
      match p r !! name with
      | None => (Ok tt, assign)
      | Some (Rule c) =>
          match validate c (ctx_name name) value with
          | Ok _ => (Ok tt, assign)
          | Raise e => (Raise e, self)
          end
      | Some (Plain _) =>
          (Raise (raise_InterfaceValueError None (req_read_only name)), self)
      end
  end.

(** [BaseInterface.__getattr__] *)
Definition __getattr__ (st : Registry) (self : Instance) (name : string)
    : Result Value * Instance :=
  match __dict__ self !! name with
  | Some v => (Ok v, self)
  | None =>
      let cls_name := __class__ self in
      let assign v := mkInstance cls_name (<[name := v]> (__dict__ self)) in
      match inst_cls_of st cls_name with
      | None => (Raise (mkExn KeyError None req_other), self)
      | Some r =>
          match p r !! name with
          | Some (Rule (IList _)) | Some (Rule (IOption _)) =>
              (Raise (raise_InterfaceValueError None (req_not_available name)), self)
          | Some (Rule (_IValue TYPE)) =>
              match call_type TYPE with
              | Ok v => (Ok v, assign v)
              | Raise e => (Raise e, self)
              end
          | Some (Plain v) => (Ok v, assign v)
          | None =>
              (Raise (raise_InterfaceValueError None (req_not_available name)), self)
          end
      end
  end.

End Attributes.

(** ** Notions used by the statements *)

(** The exception a computation ended with, if any. *)
Definition failure {A S : Type} (r : Result A * S) : option Exn :=
  match r.1 with
  | Ok _ => None
  | Raise e => Some e
  end.

Section Notions.

Context {World : Type}.

(** A function is contracted with [rule] for the class [c] once
    [_apply_rules_to_method] has attached both attributes to it. *)
Definition contracted (f : function World) (rule : IFunction) (c : string) : Prop :=
  __rule__ f = Some rule ∧ __bind_cls__ f = Some c.

(** Every positional argument that [zip] pairs with an input rule passes
    that rule. *)
Definition inputs_pass (f : function World) (rule : IFunction) (args : list Value) : Prop :=
  Forall (λ ra : Constraint * Value, validate ra.1 (as_ctx f) ra.2 = Ok tt)
         (zip (IN rule).*2 (tail args)).

(** What [new_f] does with the outcome of the body. *)
Definition after_body (f : function World) (rule : IFunction)
    (r : Result Value * World) : Result Value * World :=
  match r with
  | (Raise e, w') => (Raise e, w')
  | (Ok result, w') => (check_output (as_ctx f) (OUT rule) result, w')
  end.

End Notions.

(** The world of the examples below: named cells holding values. *)
Definition Storage : Type := gmap string Value.

(** ** The interface of the module documentation

    [IPort] declares [set_port(self, port_id = int)] and, decorated with
    [returns(int)], [get_port(self)]; [MyPort] implements both.  A world is
    the private storage the bodies write to ([Storage]). *)
Module PortExample.

Definition pass_body : list Value → gmap string Value → Storage → Result Value * Storage :=
  λ _ _ w, (Ok VNone, w).

Definition IPort_set_port : function Storage :=
  mkFunction "set_port" ["self"; "port_id"] (Some [Plain (VType T_int)])
             None None None pass_body.

Definition IPort_get_port_undecorated : function Storage :=
  mkFunction "get_port" ["self"] None None None None pass_body.

(** [get_port] after [returns(int)]. *)
Definition IPort_get_port : function Storage :=
  mkFunction "get_port" ["self"] None (Some (_IValue T_int)) None None pass_body.

Definition IPort_namespace : gmap string (Entry Storage) :=
  {[ "set_port" := Function IPort_set_port;
     "get_port" := Function IPort_get_port ]}.

(** The registry once [IPort] is declared. *)
Definition IPort_registry : Registry :=
  (__new__ "IPort" ["BaseInterface"] IPort_namespace empty_registry).2.

(** [self._port_id = port_id], with [port_id] taken by position or by
    keyword. *)
Definition set_port_body : list Value → gmap string Value → Storage → Result Value * Storage :=
  λ args kwrd w,
    match args !! 1%nat, kwrd !! "port_id" with
    | Some v, _ | None, Some v => (Ok VNone, <["_port_id" := v]> w)
    | None, None => (Raise (mkExn TypeError None req_other), w)
    end.

(** [return self._port_id] *)
Definition get_port_body : list Value → gmap string Value → Storage → Result Value * Storage :=
  λ _ _ w,
    match w !! "_port_id" with
    | Some v => (Ok v, w)
    | None => (Raise (mkExn AttributeError None req_other), w)
    end.

(** A body that stores its argument and then returns it. *)
Definition set_and_return_body : list Value → gmap string Value → Storage → Result Value * Storage :=
  λ args _ w,
    match args !! 1%nat with
    | Some v => (Ok v, <["_port_id" := v]> w)
    | None => (Raise (mkExn TypeError None req_other), w)
    end.

Definition MyPort_set_port : function Storage :=
  mkFunction "set_port" ["self"; "port_id"] None None None None set_port_body.

Definition MyPort_get_port : function Storage :=
  mkFunction "get_port" ["self"] None None None None get_port_body.

Definition set_port_rule : IFunction :=
  mkIFunction [("port_id", _IValue T_int)] (_IValue T_NoneType).

Definition get_port_rule : IFunction :=
  mkIFunction [] (_IValue T_int).

Definition IPort_rule : IRule :=
  mkIRule {[ "set_port" := set_port_rule; "get_port" := get_port_rule ]} ∅.

(** A body of [MyPort] without [get_port]. *)
Definition incomplete_namespace : gmap string (Entry Storage) :=
  {[ "set_port" := Function MyPort_set_port ]}.

(** A body of [MyPort] whose [set_port] names its parameter [x]. *)
Definition renamed_namespace : gmap string (Entry Storage) :=
  {[ "set_port" := Function (mkFunction "set_port" ["self"; "x"] None None None None
                                        set_port_body);
     "get_port" := Function MyPort_get_port ]}.

(** The complete body of [MyPort]. *)
Definition MyPort_namespace : gmap string (Entry Storage) :=
  {[ "set_port" := Function MyPort_set_port;
     "get_port" := Function MyPort_get_port ]}.

(** [MyPort.set_port] as the metaclass leaves it. *)
Definition bound_set_port : function Storage :=
  mkFunction "set_port" ["self"; "port_id"] None None
             (Some set_port_rule) (Some "MyPort") set_port_body.

Definition bound_set_and_return : function Storage :=
  mkFunction "set_port" ["self"; "port_id"] None None
             (Some set_port_rule) (Some "MyPort") set_and_return_body.

Definition self : Value := VBound "MyPort" 0.

End PortExample.

(** ** The second example of the module documentation

    [IPort] declares the attributes [default = int] and [name = str];
    [YourPort] derives from it and has a constructor of its own that sets
    [self.name = 'NOT_SET'].  Here a world is the [__dict__] of the
    instance. *)
Module AttrExample.

Definition IPort_namespace : gmap string (Entry Storage) :=
  {[ "default" := Object (Plain (VType T_int));
     "name" := Object (Plain (VType T_str)) ]}.

Definition YourPort_init : function Storage :=
  mkFunction "__init__" ["self"] None None None None
             (λ _ _ w, (Ok VNone, <["name" := VStr "NOT_SET"]> w)).

Definition YourPort_namespace : gmap string (Entry Storage) :=
  {[ "__init__" := Function YourPort_init ]}.

Definition IPort_declared : Result (gmap string (Attr Storage)) * Registry :=
  __new__ "IPort" ["BaseInterface"] IPort_namespace empty_registry.

Definition YourPort_declared : Result (gmap string (Attr Storage)) * Registry :=
  __new__ "YourPort" ["IPort"] YourPort_namespace IPort_declared.2.

Definition YourPort_registry : Registry := YourPort_declared.2.

(** No user class is called in this example. *)
Definition no_user_class : PyType → Result Value :=
  λ _, Raise (mkExn TypeError None req_other).

(** A [YourPort] instance with nothing assigned yet. *)
Definition uPort : Instance := mkInstance "YourPort" ∅.

End AttrExample.

(** ** An interface with a read-only attribute and an option attribute

    [IConn] declares [version = 3] and [port_type = IOption('ftp', 'http')];
    [Conn] derives from it. *)
Module FixedExample.

Definition IConn_namespace : gmap string (Entry unit) :=
  {[ "version" := Object (Plain (VInt 3));
     "port_type" := Object (Rule (IOption [VStr "ftp"; VStr "http"])) ]}.

Definition Conn_registry : Registry :=
  (__new__ (World := unit) "Conn" ["IConn"] ∅
     (__new__ "IConn" ["BaseInterface"] IConn_namespace empty_registry).2).2.

Definition conn : Instance := mkInstance "Conn" ∅.

End FixedExample.

(** ** Notions for the statements about class creation *)

Section BinderNotions.

Context {World : Type}.
Implicit Types (namespace : gmap string (Entry World)).

(** The rule object [_apply_rules_to_method] works with for the class
    [name] with base [base]: the one [inst_cls] already holds for [name],
    else the one of the interface [base]. *)
Definition bound_rule (st : Registry) (name base : string) : option IRule :=
  match inst_cls st !! name with
  | Some l => store st !! l
  | None => rules_of st base
  end.



(** The exception [apply_rule] raises for [k], if any. *)
Definition defect (r : IRule) namespace (k : string) : option Exn :=
  match namespace !! k with
  | None => Some (MissingMethodError k)
  | Some (Object _) => None
  | Some (Function f) =>
      match m r !! k with
      | None => Some (mkExn KeyError None req_other)
      | Some rule =>
          if decide ((IN rule).*1 ≠ tail (co_args f))
          then Some (SignatureMismatchError k (IN rule).*1)
          else None
      end
  end.

(** The first exception met when the names [ks] are gone through in
    order. *)
Fixpoint first_defect (r : IRule) namespace (ks : list string) : option Exn :=
  match ks with
  | [] => None
  | k :: rest =>
      match defect r namespace k with
      | Some e => Some e
      | None => first_defect r namespace rest
      end
  end.


End BinderNotions.

(** ** The loop of [_establish_rules] on one rule object *)

Section EstablishNotions.

Context {World : Type}.
Implicit Types (namespace : gmap string (Entry World)) (cls : gmap string (Attr World)).

(** The registry with the rule object at [l] replaced. *)
Definition set_rule (st : Registry) (l : nat) (r : IRule) : Registry :=
  mkRegistry (<[l := r]> (store st)) (rules st) (inst_cls st).

(** [establish_entry] as a function of the rule object it works on. *)
Definition establish_pure (acc : IRule * gmap string (Attr World))
    (kv : string * Entry World) : Result (IRule * gmap string (Attr World)) :=
  let '(r, cls) := acc in
  let '(k, v) := kv in
  if decide (is_Some (m r !! k)) then Ok (r, cls)
  else
    match v with
    | Function f =>
        match _IFunction f with
        | Ok rule => Ok (mkIRule (<[k := rule]> (m r)) (p r), cls)
        | Raise e => Raise e
        end
    | Object o =>
        if negb (String.prefix "__" k)
        then Ok (mkIRule (m r) (<[k := as_property_rule o]> (p r)), delete k cls)
        else Ok (r, cls)
    end.

Fixpoint establish_loop (acc : IRule * gmap string (Attr World))
    (items : list (string * Entry World)) : Result (IRule * gmap string (Attr World)) :=
  match items with
  | [] => Ok acc
  | kv :: rest =>
      match establish_pure acc kv with
      | Ok acc' => establish_loop acc' rest
      | Raise e => Raise e
      end
  end.

(** The method rule under [k] after the loop has gone through
    [namespace], starting from [r]. *)
Definition m_after (r : IRule) namespace (k : string) : option IFunction :=
  match m r !! k with
  | Some rule => Some rule
  | None =>
      match namespace !! k with
      | Some (Function f) =>
          match _IFunction f with
          | Ok rule => Some rule
          | Raise _ => None
          end
      | _ => None
      end
  end.

(** The property rule the loop writes under [k], if it writes one. *)
Definition written_property (r : IRule) namespace (k : string) : option PyObj :=
  match namespace !! k with
  | Some (Object o) =>
      if decide (is_Some (m r !! k)) then None
      else if String.prefix "__" k then None
      else Some (as_property_rule o)
  | _ => None
  end.

Definition p_after (r : IRule) namespace (k : string) : option PyObj :=
  match written_property r namespace k with
  | Some o => Some o
  | None => p r !! k
  end.

Definition cls_after (r : IRule) namespace cls (k : string) : option (Attr World) :=
  match written_property r namespace k with
  | Some _ => None
  | None => cls !! k
  end.

End EstablishNotions.

(** ** Declaring an interface twice under one name

    [IShape] is first declared with the attribute [area = int], then
    declared again with a method [area(self)]. *)
Module RedeclareExample.

Definition first_namespace : gmap string (Entry unit) :=
  {[ "area" := Object (Plain (VType T_int)) ]}.

Definition area_method : function unit :=
  mkFunction "area" ["self"] None None None None (λ _ _ w, (Ok VNone, w)).

Definition second_namespace : gmap string (Entry unit) :=
  {[ "area" := Function area_method ]}.

Definition declared_once : Registry :=
  (__new__ "IShape" ["BaseInterface"] first_namespace empty_registry).2.

Definition declared_twice : Result (gmap string (Attr unit)) * Registry :=
  __new__ "IShape" ["BaseInterface"] second_namespace declared_once.

End RedeclareExample.

(** ** The two declarations of [IPort] in the module documentation

    The documentation declares [IPort] with its two methods and, further
    down, declares [IPort] again with the attributes [default] and [name]. *)
Module Redeclared.


(** The class dictionary of the second [IPort]: both attributes are
    removed from it. *)
Definition IPort_again_cls : gmap string (Attr Storage) := ∅.

End Redeclared.

(** ** Notions for the further properties *)

(** The [__dict__] [d] respects the property rules of [r]: a value stored
    under a name with a rule object passes that rule, and a value stored
    under the name of a read-only attribute is the value of the class
    body. *)
Definition respects_rules (r : IRule) (d : gmap string Value) : Prop :=
  ∀ name v, d !! name = Some v →
    match p r !! name with
    | Some (Rule c) => validate c (ctx_name name) v = Ok tt
    | Some (Plain v0) => v = v0
    | None => True
    end.

(** Calling a class gives an instance of that class. *)
Definition constructs_instances (construct : PyType → Result Value) : Prop :=
  ∀ T v, construct T = Ok v → type_of v = T.

(** A parameter default that [_IFunction] accepts, as the input rule it
    becomes. *)
Definition as_input_rule (v : PyObj) : option Constraint :=
  match bare_type v, v with
  | Some t, _ => Some (_IValue t)
  | None, Rule (IList T) => Some (IList T)
  | None, Rule (IOption opts) => Some (IOption opts)
  | None, _ => None
  end.

(** The function [f] with the rule and the class name that
    [_apply_rules_to_method] attaches to it before wrapping it. *)
Definition attach {World : Type} (name : string) (rule : IFunction)
    (f : function World) : function World :=
  mkFunction (__name__ f) (co_args f) (func_defaults f) (__returns__ f)
             (Some rule) (Some name) (call f).

(** Every reference of [rules] and [inst_cls] points into [store], and two
    interface names never share a rule object. *)
Definition registry_wf (st : Registry) : Prop :=
  (∀ n l, rules st !! n = Some l → (l < length (store st))%nat)
  ∧ (∀ n l, inst_cls st !! n = Some l → (l < length (store st))%nat)
  ∧ (∀ n n' l, rules st !! n = Some l → rules st !! n' = Some l → n = n').

(** ** Data of the examples for the further properties *)
Module ExtraExample.

(** A [Conn] instance whose [port_type] has been assigned. *)
Definition conn_ftp : Instance := mkInstance "Conn" {[ "port_type" := VStr "ftp" ]}.

Definition Conn_rule : IRule :=
  mkIRule ∅ {[ "version" := Plain (VInt 3);
               "port_type" := Rule (IOption [VStr "ftp"; VStr "http"]) ]}.

(** [IPortMgr] declares [ports = IList(int)]; [PortMgr] derives from it. *)
Definition IPortMgr_namespace : gmap string (Entry unit) :=
  {[ "ports" := Object (Rule (IList T_int)) ]}.

Definition PortMgr_registry : Registry :=
  (__new__ (World := unit) "PortMgr" ["IPortMgr"] ∅
     (__new__ "IPortMgr" ["BaseInterface"] IPortMgr_namespace empty_registry).2).2.

Definition PortMgr_rule : IRule := mkIRule ∅ {[ "ports" := Rule (IList T_int) ]}.

Definition portMgr : Instance := mkInstance "PortMgr" ∅.


(** The registry once the complete [MyPort] is bound to [IPort]. *)
Definition MyPort_registry : Registry :=
  (__new__ "MyPort" ["IPort"] PortExample.MyPort_namespace
           PortExample.IPort_registry).2.

(** An interface method whose first parameter has no default:
    [def move(self, x, y = int)]. *)
Definition move : function Storage :=
  mkFunction "move" ["self"; "x"; "y"] (Some [Plain (VType T_int)])
             None None None PortExample.pass_body.

End ExtraExample.

(** ** An attribute declared with the type of [None]

    [INothing] declares [nothing = type(None)]; [Nothing] derives from
    it. *)
Module NoneExample.

Definition INothing_namespace : gmap string (Entry unit) :=
  {[ "nothing" := Object (Plain (VType T_NoneType)) ]}.

Definition Nothing_registry : Registry :=
  (__new__ (World := unit) "Nothing" ["INothing"] ∅
     (__new__ "INothing" ["BaseInterface"] INothing_namespace empty_registry).2).2.

Definition nothing : Instance := mkInstance "Nothing" ∅.

End NoneExample.

(** ** Bodies that the check of a concrete class accepts or refuses *)
Module CheckExamples.

Definition method (name : string) (args : list string)
    (defaults : option (list PyObj)) : function Storage :=
  mkFunction name args defaults None None None PortExample.pass_body.















(** A further declaration of [IPort] with [speed = int] and
    [def check(self, x = 3)], whose default is no rule. *)
Definition IPort_speed_check : gmap string (Entry Storage) :=
  {[ "speed" := Object (Plain (VType T_int));
     "check" := Function (method "check" ["self"; "x"] (Some [Plain (VInt 3)])) ]}.

End CheckExamples.

(** * Properties *)

(** ** Validation *)

(** With a function that carries its [__bind_cls__], a failed validation is
    always an [InterfaceValueError]. *)
Lemma _IValue_validate_bound T c n v e :
  _IValue_validate T (ctx_function (Some c) n) v = Raise e →
  exc_class e = InterfaceValueError.
Proof.
  unfold _IValue_validate. case_decide; [|done].
  by intros [= <-].
Qed.

Lemma validate_each_bound T c n vs e :
  validate_each T (ctx_function (Some c) n) vs = Raise e →
  exc_class e = InterfaceValueError.
Proof.
  induction vs as [|v vs IH]; simpl; [done|].
  destruct (_IValue_validate _ _ v) as [[]|e'] eqn:Hv; [exact IH|].
  intros [= <-]. by eapply _IValue_validate_bound.
Qed.

Lemma validate_bound rule c n v e :
  validate rule (ctx_function (Some c) n) v = Raise e →
  exc_class e = InterfaceValueError.
Proof.
  destruct rule as [T|T|opts]; simpl.
  - apply _IValue_validate_bound.
  - destruct v; simpl; try (by intros [= <-]). apply validate_each_bound.
  - unfold IOption_validate. destruct (negb _); [|done]. by intros [= <-].
Qed.

(** An [_IValue] rule passes exactly the values whose type is its type. *)
Lemma _IValue_validate_Ok T f v :
  validate (_IValue T) f v = Ok tt ↔ type_of v = T.
Proof.
  simpl. unfold _IValue_validate. by case_decide; split.
Qed.

(** An [IOption] rule passes exactly the values equal to one of its
    options. *)
Lemma IOption_validate_Ok opts f v :
  validate (IOption opts) f v = Ok tt ↔ py_in v opts = true.
Proof.
  simpl. unfold IOption_validate. by destruct (py_in v opts).
Qed.

Section Wrapper.

Context {World : Type}.
Implicit Types (f : function World) (w : World).

(** The input loop either lets every pair pass or ends with
    [InputValueError]. *)
Lemma check_inputs_bound c n pairs :
  check_inputs (ctx_function (Some c) n) pairs = Ok tt
  ∨ check_inputs (ctx_function (Some c) n) pairs = Raise InputValueError.
Proof.
  induction pairs as [|[r a] pairs IH]; simpl; [by left|].
  destruct (validate r _ a) as [[]|e] eqn:Hv; [exact IH|].
  right. by rewrite (validate_bound _ _ _ _ _ Hv).
Qed.

Lemma check_inputs_Ok c n pairs :
  check_inputs (ctx_function (Some c) n) pairs = Ok tt ↔
  Forall (λ ra : Constraint * Value,
            validate ra.1 (ctx_function (Some c) n) ra.2 = Ok tt) pairs.
Proof.
  induction pairs as [|[r a] pairs IH]; simpl.
  - split; [constructor|done].
  - destruct (validate r _ a) as [[]|e] eqn:Hv.
    + rewrite IH. split; [by constructor|by inversion 1].
    + split.
      * rewrite (validate_bound _ _ _ _ _ Hv). simpl. done.
      * inversion 1 as [|? ? Hhd]; simplify_eq. simpl in Hhd. congruence.
Qed.

(** C1: on a contracted method, when some positional argument fails the
    input rule it is paired with by position, the call raises
    [InputValueError] and the world is left as it was, whatever the body
    is: the body is not run. *)
Theorem C1_invalid_input_raises f rule c args kwrd w i r a e :
  contracted f rule c →
  (IN rule).*2 !! i = Some r →
  tail args !! i = Some a →
  validate r (as_ctx f) a = Raise e →
  new_f f args kwrd w = (Raise InputValueError, w).
Proof.
  intros [Hrule Hcls] Hr Ha Hv. unfold new_f. rewrite Hrule.
  unfold as_ctx in *. rewrite Hcls in *.
  destruct (check_inputs_bound c (__name__ f) (zip (IN rule).*2 (tail args)))
    as [Hok| ->]; [|done].
  apply check_inputs_Ok in Hok.
  assert (Hin : (r, a) ∈ zip (IN rule).*2 (tail args)).
  { apply list_elem_of_lookup. exists i.
    apply lookup_zip_with_Some. eauto. }
  rewrite Forall_forall in Hok. specialize (Hok _ Hin). simpl in Hok. congruence.
Qed.

End Wrapper.

Section WrapperOutput.

Context {World : Type}.
Implicit Types (f : function World) (w : World).

(** Once the inputs have passed, [new_f] is the body followed by the output
    check. *)
Lemma new_f_inputs_pass f rule c args kwrd w :
  contracted f rule c →
  inputs_pass f rule args →
  new_f f args kwrd w = after_body f rule (call f args kwrd w).
Proof.
  intros [Hrule Hcls] Hin. unfold new_f, after_body, inputs_pass, as_ctx in *.
  rewrite Hrule. rewrite Hcls in *.
  apply check_inputs_Ok in Hin. rewrite Hin.
  by destruct (call f args kwrd w) as [[v|e] w'].
Qed.

(** The rule built from an interface function takes its output rule from
    the [returns] decoration, and requires [None] without one. *)
Lemma _IFunction_OUT (obj : function World) rule :
  _IFunction obj = Ok rule →
  OUT rule = default (_IValue T_NoneType) (__returns__ obj).
Proof.
  unfold _IFunction. destruct (_get_args obj); [|done].
  destruct (wrap_IN a); [|done]. intros [= <-]. simpl.
  by destruct (__returns__ obj).
Qed.

(** What the decorator leaves on the function. *)
Lemma returns_attribute rtype (obj obj' : function World) :
  returns rtype obj = Ok obj' →
  ∃ c, __returns__ obj' = Some c ∧
       match rtype with
       | Plain (VType t) => c = _IValue t
       | Rule r => c = r
       | _ => False
       end.
Proof.
  unfold returns.
  destruct rtype as [[T|T|opts]|v]; simpl; try done; try (intros [= <-]; by eauto).
  destruct v; simpl; try done.
  case_decide; [|done]. intros [= <-]. eauto.
Qed.

(** C2: on a contracted method whose positional arguments all pass, the
    body is run (the world after the call is the world the body leaves),
    and when the value it returns fails the output rule, which is the rule
    of the [returns] decoration of the interface function [obj] or, without
    a decoration, the rule that only [None] passes, the call raises
    [OutputValueError] in the world the body left. *)
Theorem C2_invalid_output_raises (obj : function World) f rule c args kwrd w :
  _IFunction obj = Ok rule →
  contracted f rule c →
  inputs_pass f rule args →
  (new_f f args kwrd w).2 = (call f args kwrd w).2
  ∧ ∀ result w' e,
      call f args kwrd w = (Ok result, w') →
      validate (default (_IValue T_NoneType) (__returns__ obj)) (as_ctx f) result
        = Raise e →
      new_f f args kwrd w = (Raise OutputValueError, w').
Proof.
  intros Hobj Hc Hin. rewrite (new_f_inputs_pass _ _ _ _ _ _ Hc Hin).
  split.
  - by destruct (call f args kwrd w) as [[v|e] w'].
  - intros result w' e -> Hv. simpl.
    rewrite <- (_IFunction_OUT _ _ Hobj) in Hv.
    unfold check_output. rewrite Hv.
    destruct Hc as [_ Hcls]. unfold as_ctx in Hv. rewrite Hcls in Hv.
    by rewrite (validate_bound _ _ _ _ _ Hv).
Qed.

(** C10: the input loop of a contracted method looks at the positional
    arguments only.  When these pass, the body receives the keyword
    arguments [kwrd] as they are, for every [kwrd], also one that binds a
    declared parameter to a value its rule rejects. *)
Theorem C10_keyword_arguments_unchecked f rule c args kwrd w :
  contracted f rule c →
  inputs_pass f rule args →
  new_f f args kwrd w = after_body f rule (call f args kwrd w).
Proof. apply new_f_inputs_pass. Qed.

End WrapperOutput.

Module PortWitnesses.
Import PortExample.

(** The decorator gives [get_port] its output rule. *)
Example IPort_get_port_decorated :
  returns (Plain (VType T_int)) IPort_get_port_undecorated = Ok IPort_get_port.
Proof. reflexivity. Qed.

(** [set_port(5)] succeeds and stores 5. *)
Example set_port_5 :
  new_f bound_set_port [self; VInt 5] ∅ ∅ = (Ok VNone, {["_port_id" := VInt 5]}).
Proof. vm_compute. reflexivity. Qed.

(** [set_port("x")] on a [MyPort]: refused, nothing stored. *)
Lemma C1_witness :
  new_f bound_set_port [self; VStr "x"] ∅ ∅ = (Raise InputValueError, ∅).
Proof.
  apply (C1_invalid_input_raises bound_set_port set_port_rule "MyPort"
           [self; VStr "x"] ∅ ∅ 0%nat (_IValue T_int) (VStr "x")
           (mkExn InterfaceValueError (Some ("MyPort", "set_port")) (req_type T_int))).
  - split; reflexivity.
  - reflexivity.
  - reflexivity.
  - reflexivity.
Defined.

(** A [set_port] that returns its argument although the interface declares
    no return value: the value is stored, then the call fails. *)
Lemma C2_witness :
  new_f bound_set_and_return [self; VInt 5] ∅ ∅
  = (Raise OutputValueError, {["_port_id" := VInt 5]}).
Proof.
  refine (proj2 (C2_invalid_output_raises IPort_set_port bound_set_and_return
                   set_port_rule "MyPort" [self; VInt 5] ∅ ∅ _ _ _)
                (VInt 5) _
                (mkExn InterfaceValueError (Some ("MyPort", "set_port"))
                       (req_type T_NoneType)) _ _).
  - reflexivity.
  - split; reflexivity.
  - repeat constructor.
  - reflexivity.
  - reflexivity.
Defined.

(** [set_port(port_id = "x")]: the string reaches the body and is stored,
    although the rule of [port_id] rejects it. *)
Lemma C10_witness :
  validate (_IValue T_int) (as_ctx bound_set_port) (VStr "x") ≠ Ok tt
  ∧ new_f bound_set_port [self] {["port_id" := VStr "x"]} ∅
    = (Ok VNone, {["_port_id" := VStr "x"]}).
Proof.
  split; [discriminate|].
  rewrite (C10_keyword_arguments_unchecked bound_set_port set_port_rule "MyPort"
             [self] {["port_id" := VStr "x"]} ∅).
  - reflexivity.
  - split; reflexivity.
  - constructor.
Defined.

End PortWitnesses.

(** ** Attribute access *)

Section AttributeHooks.

Variable construct : PyType → Result Value.
Implicit Types (st : Registry) (self : Instance).

(** A value of the class body that is neither a type nor a rule object is
    kept as it is: the attribute is read-only. *)
Lemma as_property_rule_plain v :
  type_of v ≠ T_type → as_property_rule (Plain v) = Plain v.
Proof.
  intros Hv. unfold as_property_rule, bare_type.
  destruct v; try done. by rewrite decide_False.
Qed.

(** C6: an attribute whose rule is a plain value cannot be assigned: every
    [__setattr__] on it, for every value and every state of the instance
    (the first attempt included), raises [ReadOnlyPropertyError] and leaves
    the instance as it was. *)
Theorem C6_fixed_value_read_only st self name v value r :
  inst_cls_of st (__class__ self) = Some r →
  p r !! name = Some (Plain v) →
  __setattr__ st self name value = (Raise (ReadOnlyPropertyError name), self).
Proof.
  intros Hr Hp. unfold __setattr__. by rewrite Hr, Hp.
Qed.

(** C7 (amended): [__getattr__] on a name that is not in [__dict__].
    With the rule [_IValue T] the type [T] is called with no argument.  For
    [int], [long], [str], [bool] and [list] this gives the zero value ([0],
    [0L], the empty string, [False], the empty list), for a class what its
    constructor gives; the value [v] obtained is returned and stored in
    [__dict__], so that the next access returns [v] from there, however types
    are called by then.  When the call raises, as it does with [TypeError]
    for [NoneType], [type] and the metaclass, that exception is what
    [__getattr__] raises, and the instance is unchanged.  With a plain value
    as rule, that value is returned and stored in the same way.  With an
    [IList] or [IOption] rule, or without a rule,
    [UndeclaredAttributeError] is raised and the instance is unchanged. *)
Theorem C7_get_unset_attribute st self name r :
  inst_cls_of st (__class__ self) = Some r →
  __dict__ self !! name = None →
  let cached v := mkInstance (__class__ self) (<[name := v]> (__dict__ self)) in
  (∀ T, p r !! name = Some (Rule (_IValue T)) →
        match call_type construct T with
        | Ok v =>
            __getattr__ construct st self name = (Ok v, cached v)
            ∧ ∀ construct', __getattr__ construct' st (cached v) name
                            = (Ok v, cached v)
        | Raise e => __getattr__ construct st self name = (Raise e, self)
        end)
  ∧ (call_type construct T_int = Ok (VInt 0)
     ∧ call_type construct T_long = Ok (VLong 0)
     ∧ call_type construct T_str = Ok (VStr "")
     ∧ call_type construct T_bool = Ok (VBool false)
     ∧ call_type construct T_list = Ok (VList []))
  ∧ (∀ c, call_type construct (T_class c) = construct (T_class c)
          ∧ call_type construct (T_iclass c) = construct (T_iclass c))
  ∧ (∀ T, T ∈ [T_NoneType; T_type; T_Interface] →
          call_type construct T = Raise (mkExn TypeError None req_other))
  ∧ (∀ v, p r !! name = Some (Plain v) →
          __getattr__ construct st self name = (Ok v, cached v)
          ∧ ∀ construct', __getattr__ construct' st (cached v) name = (Ok v, cached v))
  ∧ (∀ T, p r !! name = Some (Rule (IList T)) →
          __getattr__ construct st self name
          = (Raise (UndeclaredAttributeError name), self))
  ∧ (∀ opts, p r !! name = Some (Rule (IOption opts)) →
          __getattr__ construct st self name
          = (Raise (UndeclaredAttributeError name), self))
  ∧ (p r !! name = None →
          __getattr__ construct st self name
          = (Raise (UndeclaredAttributeError name), self)).
Proof.
  intros Hr Hd cached.
  assert (Hagain : ∀ v construct',
             __getattr__ construct' st (cached v) name = (Ok v, cached v)).
  { intros v construct'. unfold __getattr__, cached. simpl.
    by rewrite lookup_insert_eq. }
  unfold __getattr__. rewrite Hd, Hr.
  split_and!; try done.
  - intros T ->. destruct (call_type construct T) as [v|e]; [|done].
    split; [done|]. intros c'. apply Hagain.
  - intros T HT. repeat (apply elem_of_cons in HT as [->|HT]; [done|]).
    by apply elem_of_nil in HT.
  - intros v ->. split; [done|]. intros c'. apply Hagain.
  - by intros T ->.
  - by intros opts ->.
  - by intros ->.
Qed.

End AttributeHooks.

Module AttributeWitnesses.

(** [conn.version = 4] on a fresh instance. *)
Lemma C6_witness :
  __setattr__ FixedExample.Conn_registry FixedExample.conn "version" (VInt 4)
  = (Raise (ReadOnlyPropertyError "version"), FixedExample.conn).
Proof.
  apply (C6_fixed_value_read_only FixedExample.Conn_registry FixedExample.conn
           "version" (VInt 3) (VInt 4)
           (mkIRule ∅ {[ "version" := Plain (VInt 3);
                         "port_type" := Rule (IOption [VStr "ftp"; VStr "http"]) ]})).
  - vm_compute. reflexivity.
  - vm_compute. reflexivity.
Defined.

(** [uPort.default] before any assignment. *)
Lemma C7_witness :
  __getattr__ AttrExample.no_user_class AttrExample.YourPort_registry
              AttrExample.uPort "default"
  = (Ok (VInt 0), mkInstance "YourPort" {[ "default" := VInt 0 ]})
  ∧ ∀ construct', __getattr__ construct' AttrExample.YourPort_registry
                    (mkInstance "YourPort" {[ "default" := VInt 0 ]}) "default"
                  = (Ok (VInt 0), mkInstance "YourPort" {[ "default" := VInt 0 ]}).
Proof.
  refine (proj1 (C7_get_unset_attribute AttrExample.no_user_class
                    AttrExample.YourPort_registry AttrExample.uPort "default"
                    (mkIRule ∅ {[ "default" := Rule (_IValue T_int);
                                  "name" := Rule (_IValue T_str) ]}) _ _)
                T_int _).
  - vm_compute. reflexivity.
  - reflexivity.
  - vm_compute. reflexivity.
Defined.

(** [INothing] declares [nothing = type(None)]; reading [nothing] on an
    instance of [Nothing], which derives from it, calls [NoneType] and
    raises [TypeError]: nothing is returned. *)
Lemma C7_counterexample :
  inst_cls_of NoneExample.Nothing_registry "Nothing"
  = Some (mkIRule ∅ {[ "nothing" := Rule (_IValue T_NoneType) ]})
  ∧ __getattr__ AttrExample.no_user_class NoneExample.Nothing_registry
                NoneExample.nothing "nothing"
    = (Raise (mkExn TypeError None req_other), NoneExample.nothing).
Proof. split; vm_compute; reflexivity. Qed.

End AttributeWitnesses.

(** ** Binding a concrete class *)

(** Unfolds the operations of [M] down to state passing. *)
Ltac unfold_M :=
  unfold getitem, mbind, M_bind, mret, M_ret, throw, lift, get_registry,
    put_registry in *; simpl in *.

Section Binder.

Context {World : Type}.
Implicit Types (namespace : gmap string (Entry World)) (cls : gmap string (Attr World)).
Implicit Types (st : Registry) (r : IRule).

Lemma apply_rule_defect name r namespace cls k st :
  match defect r namespace k with
  | Some e => apply_rule name r namespace cls k st = (Raise e, st)
  | None => ∃ cls', apply_rule name r namespace cls k st = (Ok cls', st)
                    ∧ ∀ k', k' ≠ k → cls' !! k' = cls !! k'
  end.
Proof.
  unfold defect, apply_rule.
  destruct (namespace !! k) as [[f|o]|]; [|by eauto|done].
  destruct (m r !! k) as [rule|]; [|done]. unfold_M.
  case_decide; [done|].
  eexists; split; [done|]. intros k' Hk'. by rewrite lookup_insert_ne.
Qed.

(** The loop of [_apply_rules_to_method] stops at the first defect and
    never touches the registry; names outside [ks] keep their attribute. *)
Lemma for_each_apply_rule name r namespace ks : ∀ cls st,
  match first_defect r namespace ks with
  | Some e => for_each (apply_rule name r namespace) cls ks st = (Raise e, st)
  | None => ∃ cls', for_each (apply_rule name r namespace) cls ks st = (Ok cls', st)
                    ∧ ∀ k', k' ∉ ks → cls' !! k' = cls !! k'
  end.
Proof.
  induction ks as [|k ks IH]; intros cls st; simpl.
  - by eauto.
  - pose proof (apply_rule_defect name r namespace cls k st) as Hk.
    unfold mbind, M_bind.
    destruct (defect r namespace k) as [e|].
    + by rewrite Hk.
    + destruct Hk as (cls1 & -> & Hcls1).
      specialize (IH cls1 st).
      destruct (first_defect r namespace ks) as [e|]; [done|].
      destruct IH as (cls' & -> & Hcls'). eexists; split; [done|].
      intros k' Hk'. apply not_elem_of_cons in Hk' as [? ?].
      rewrite Hcls' by done. by apply Hcls1.
Qed.

(** [_apply_rules_to_method] with the rule object resolved. *)
Lemma _apply_rules_to_method_bound st name base cls namespace r :
  bound_rule st name base = Some r →
  ∃ st1,
    _apply_rules_to_method name [base] cls namespace st
    = for_each (apply_rule name r namespace)
        (if decide (m r !! "__init__" = None)
         then <["__init__" := default_init]> cls else cls)
        (map_to_list (m r)).*1 st1.
Proof.
  unfold bound_rule, _apply_rules_to_method, rules_of. intros Hr.
  unfold_M.
  destruct (inst_cls st !! name) as [l|] eqn:Hl.
  - rewrite decide_True by eauto. simpl.
    unfold inst_cls_of. rewrite Hl, Hr. simpl. by eexists.
  - rewrite decide_False by (by intros [? ?]).
    destruct (rules st !! base) as [l|] eqn:Hb; [|done]. simpl.
    unfold inst_cls_of. simpl. rewrite lookup_insert_eq, Hr. simpl. by eexists.
Qed.





Lemma elem_of_keys r k :
  k ∈ (map_to_list (m r)).*1 ↔ is_Some (m r !! k).
Proof.
  rewrite list_elem_of_fmap. split.
  - intros ([k' x] & -> & Hx). apply elem_of_map_to_list in Hx. eauto.
  - intros [x Hx]. exists (k, x). split; [done|]. by apply elem_of_map_to_list.
Qed.







(** The parameter names of a method rule are those of the interface
    function after the receiver, cut to the number of defaults; they are
    all of them when every parameter has a default. *)
Lemma wrap_IN_cons arg (v : PyObj) (rest : list (string * PyObj)) :
  wrap_IN ((arg, v) :: rest)
  = match as_input_rule v with
    | Some c =>
        match wrap_IN rest with
        | Ok rest' => Ok ((arg, c) :: rest')
        | Raise e => Raise e
        end
    | None => Raise (mkExn InterfaceError None req_other)
    end.
Proof.
  cbn [wrap_IN]. unfold as_input_rule.
  destruct (bare_type v); [done|]. by destruct v as [[| |]|].
Qed.






End Binder.

(** ** Declaring an interface *)

Section Establish.

Context {World : Type}.
Implicit Types (namespace : gmap string (Entry World)) (cls : gmap string (Attr World)).
Implicit Types (st : Registry) (r : IRule) (items : list (string * Entry World)).

Lemma set_rule_id st l r : store st !! l = Some r → set_rule st l r = st.
Proof.
  intros Hl. destruct st as [s rs ics]. unfold set_rule. simpl in *.
  by rewrite list_insert_id.
Qed.

Lemma set_rule_set_rule st l r1 r2 :
  set_rule (set_rule st l r1) l r2 = set_rule st l r2.
Proof. unfold set_rule. simpl. by rewrite list_insert_insert_eq. Qed.

Lemma store_set_rule st l r r' :
  store st !! l = Some r → store (set_rule st l r') !! l = Some r'.
Proof. intros Hl%lookup_lt_Some. simpl. by apply list_lookup_insert_eq. Qed.

(** One round of the loop, seen from the rule object it works on. *)
Lemma establish_entry_pure st name l r cls kv :
  rules st !! name = Some l →
  store st !! l = Some r →
  establish_entry name cls kv st
  = match establish_pure (r, cls) kv with
    | Ok (r', cls') => (Ok cls', set_rule st l r')
    | Raise e => (Raise e, st)
    end.
Proof.
  intros Hname Hl. destruct kv as [k v].
  unfold establish_entry, establish_pure. unfold_M. rewrite Hname. simpl.
  rewrite Hl. simpl.
  case_decide; [by rewrite (set_rule_id _ _ _ Hl)|].
  destruct v as [f|o].
  - by destruct (_IFunction f).
  - destruct (negb _); [done|]. by rewrite (set_rule_id _ _ _ Hl).
Qed.

(** The loop succeeds on the registry exactly when it succeeds on the rule
    object, which then replaces the old one. *)
Lemma for_each_establish name l items : ∀ st r cls cls' st',
  rules st !! name = Some l →
  store st !! l = Some r →
  for_each (establish_entry name) cls items st = (Ok cls', st')
  ↔ ∃ r', establish_loop (r, cls) items = Ok (r', cls') ∧ st' = set_rule st l r'.
Proof.
  induction items as [|kv items IH]; intros st r cls cls' st' Hname Hl;
    cbn [for_each establish_loop].
  - unfold_M. split.
    + intros [= <- <-]. exists r. by rewrite (set_rule_id _ _ _ Hl).
    + intros (r' & [= <- <-] & ->). by rewrite (set_rule_id _ _ _ Hl).
  - unfold mbind, M_bind. rewrite (establish_entry_pure _ _ _ _ _ _ Hname Hl).
    destruct (establish_pure (r, cls) kv) as [[r1 cls1]|e].
    + rewrite (IH (set_rule st l r1) r1 cls1 cls' st' Hname
                 (store_set_rule _ _ _ _ Hl)).
      by setoid_rewrite set_rule_set_rule.
    + split; [done|]. by intros (? & ? & _).
Qed.

(** Without a rule object to work on, the loop fails at its first round. *)
Lemma for_each_establish_dangling name items st cls cls' st' :
  rules_of st name = None →
  for_each (establish_entry name) cls items st = (Ok cls', st') →
  items = [] ∧ cls' = cls ∧ st' = st.
Proof.
  unfold rules_of. intros Hnone. destruct items as [|[k v] items]; simpl.
  - unfold_M. by intros [= <- <-].
  - unfold establish_entry. unfold_M.
    destruct (rules st !! name) as [l|]; simpl; [|done].
    by rewrite Hnone.
Qed.

(** The loop in closed form, for a class body (the names of [items] are
    pairwise different). *)
Lemma establish_loop_closed items : ∀ r cls r' cls',
  NoDup items.*1 →
  establish_loop (r, cls) items = Ok (r', cls') →
  ∀ k, m r' !! k = m_after r (list_to_map items) k
       ∧ p r' !! k = p_after r (list_to_map items) k
       ∧ cls' !! k = cls_after r (list_to_map items) cls k
       ∧ (∀ f, (list_to_map items : gmap string (Entry World)) !! k = Some (Function f) →
               is_Some (m r' !! k)).
Proof.
  induction items as [|[k0 v0] items IH]; intros r cls r' cls' Hnd;
    cbn [establish_loop].
  - intros [= <- <-] k. simpl.
    unfold m_after, p_after, cls_after, written_property.
    rewrite lookup_empty. split_and!; try done. by destruct (m r !! k).
  - rewrite fmap_cons in Hnd. apply NoDup_cons in Hnd as [Hk0 Hnd].
    apply (not_elem_of_list_to_map (M := gmap string)) in Hk0. simpl in Hk0.
    rewrite list_to_map_cons.
    destruct (establish_pure (r, cls) (k0, v0)) as [[r1 cls1]|e] eqn:Hstep; [|done].
    intros Hloop k. destruct (IH _ _ _ _ Hnd Hloop k) as (Hm & Hp & Hc & Hf).
    clear IH Hloop.
    unfold m_after, p_after, cls_after, written_property in *.
    unfold establish_pure in Hstep.
    destruct (decide (k = k0)) as [->|Hne].
    + rewrite lookup_insert_eq. rewrite Hk0 in Hm, Hp, Hc. clear Hf.
      rewrite Hp, Hc.
      assert (Hm' : m r' !! k0 = m r1 !! k0) by (by destruct (m r1 !! k0)).
      rewrite Hm'. clear Hm Hp Hc Hm'.
      destruct (decide (is_Some (m r !! k0))) as [Hskip|Hskip].
      * injection Hstep as <- <-. destruct Hskip as [x Hx]. rewrite Hx.
        split_and!; eauto; by destruct v0.
      * apply eq_None_not_Some in Hskip.
        destruct v0 as [f|o].
        -- destruct (_IFunction f) as [rule|e]; [|done].
           injection Hstep as <- <-. simpl. rewrite lookup_insert_eq, Hskip.
           split_and!; eauto.
        -- destruct (String.prefix "__" k0); simpl in Hstep;
             injection Hstep as <- <-; simpl; rewrite Hskip.
           ++ split_and!; done.
           ++ rewrite lookup_insert_eq, lookup_delete_eq. split_and!; done.
    + rewrite lookup_insert_ne by done.
      assert (m r1 !! k = m r !! k ∧ p r1 !! k = p r !! k ∧ cls1 !! k = cls !! k)
        as (Hm1 & Hp1 & Hc1).
      { destruct (decide (is_Some (m r !! k0))); [by injection Hstep as <- <-|].
        destruct v0 as [f|o].
        - destruct (_IFunction f); [|done]. injection Hstep as <- <-. simpl.
          by rewrite lookup_insert_ne.
        - destruct (negb _); injection Hstep as <- <-; simpl; [|done].
          by rewrite lookup_insert_ne, lookup_delete_ne. }
      rewrite Hm1, Hp1, Hc1 in *. done.
Qed.




(** The method rules present before the loop are still there, unchanged,
    after it. *)
Lemma establish_loop_keeps_methods namespace r cls r' cls' :
  establish_loop (r, cls) (map_to_list namespace) = Ok (r', cls') →
  m r ⊆ m r'.
Proof.
  intros Hloop.
  pose proof (establish_loop_closed _ _ _ _ _ (NoDup_fst_map_to_list namespace) Hloop)
    as Hclosed.
  apply map_subseteq_spec. intros k x Hk.
  destruct (Hclosed k) as (-> & _). unfold m_after. by rewrite Hk.
Qed.

(** The state in which [_establish_rules] enters its loop. *)
Lemma _establish_rules_loop name cls namespace st :
  ∃ st1,
    _establish_rules name cls namespace st
    = for_each (establish_entry name) cls (map_to_list namespace) st1
    ∧ (is_Some (rules st !! name) → st1 = st)
    ∧ is_Some (rules st1 !! name)
    ∧ (rules st !! name = None → rules_of st1 name = Some (mkIRule ∅ ∅)).
Proof.
  unfold _establish_rules. unfold_M. case_decide as Hhas.
  - exists st. split_and!; try done. intros Hnone. rewrite Hnone in Hhas.
    by destruct Hhas.
  - eexists. split; [done|]. unfold rules_of. simpl. rewrite lookup_insert_eq.
    split_and!; [done|by eauto|]. intros _.
    rewrite lookup_app_r by done. by rewrite Nat.sub_diag.
Qed.

(** A declaration keeps the method names apart from the property names
    when none of its functions takes the name of a property rule. *)
Lemma establish_loop_disjoint namespace r cls r' cls' :
  establish_loop (r, cls) (map_to_list namespace) = Ok (r', cls') →
  (∀ k, is_Some (m r !! k) → p r !! k = None) →
  (∀ k f, namespace !! k = Some (Function f) → p r !! k = None) →
  ∀ k, is_Some (m r' !! k) → p r' !! k = None.
Proof.
  intros Hloop Hdisj Hfun k.
  pose proof (establish_loop_closed _ _ _ _ _ (NoDup_fst_map_to_list namespace) Hloop)
    as Hclosed.
  rewrite list_to_map_to_list in Hclosed.
  destruct (Hclosed k) as (-> & -> & _).
  unfold m_after, p_after, written_property.
  destruct (m r !! k) as [x|] eqn:Hk.
  - intros _.
    destruct (namespace !! k) as [[f|o]|]; rewrite ?decide_True by eauto;
      apply Hdisj; rewrite Hk; eauto.
  - destruct (namespace !! k) as [[f|o]|] eqn:Hns; [|by intros [? ?]..].
    intros _. by eapply Hfun.
Qed.

(** The first declaration under a name gives a rule object whose method
    names and property names are disjoint. *)
Lemma first_declaration_disjoint st name bases namespace cls st' r' :
  name ≠ "BaseInterface" → "BaseInterface" ∈ bases →
  rules st !! name = None →
  __new__ name bases namespace st = (Ok cls, st') →
  rules_of st' name = Some r' →
  ∀ k, is_Some (m r' !! k) → p r' !! k = None.
Proof.
  intros Hname Hbases Hnew. unfold __new__.
  rewrite decide_False, decide_True by done.
  destruct (_establish_rules_loop name (Raw <$> namespace) namespace st)
    as (st1 & -> & _ & [l Hl] & Hfresh).
  specialize (Hfresh Hnew). unfold rules_of in Hfresh. rewrite Hl in Hfresh.
  intros Hrun Hr'.
  destruct (proj1 (for_each_establish _ _ _ _ _ _ _ _ Hl Hfresh) Hrun)
    as (r'' & Hloop & ->).
  unfold rules_of in Hr'. simpl in Hr'. rewrite Hl in Hr'.
  rewrite list_lookup_insert_eq in Hr' by (by eapply lookup_lt_Some).
  injection Hr' as ->.
  by eapply establish_loop_disjoint.
Qed.






End Establish.

Module BinderWitnesses.
Import PortExample.

(** The registry that declaring [IPort] leaves. *)
Example IPort_registry_rule : rules_of IPort_registry "IPort" = Some IPort_rule.
Proof. vm_compute. reflexivity. Qed.

(** Declaring the complete [MyPort] wraps both methods; [set_port] becomes
    [bound_set_port]. *)
Example MyPort_declared :
  ∃ cls, (__new__ "MyPort" ["IPort"] MyPort_namespace IPort_registry).1 = Ok cls
         ∧ cls !! "set_port" = Some (Wrapper bound_set_port).
Proof. eexists. split; vm_compute; reflexivity. Qed.



Example MyPort_incomplete :
  failure (__new__ "MyPort" ["IPort"] incomplete_namespace IPort_registry)
  = Some (MissingMethodError "get_port").
Proof. vm_compute. reflexivity. Qed.



Example MyPort_renamed :
  failure (__new__ "MyPort" ["IPort"] renamed_namespace IPort_registry)
  = Some (SignatureMismatchError "set_port" ["port_id"]).
Proof. vm_compute. reflexivity. Qed.

End BinderWitnesses.

Module EstablishWitnesses.



(** A declaration of [IPort] that raises at [check] has by then written
    the property rule of [speed] into the rule object of [IPort]. *)
Example IPort_redeclared_raising :
  let out := __new__ "IPort" ["BaseInterface"] CheckExamples.IPort_speed_check
                     PortExample.IPort_registry in
  failure out = Some (mkExn InterfaceError None req_other)
  ∧ rules_of out.2 "IPort"
    = Some (mkIRule (m PortExample.IPort_rule)
                    {[ "speed" := Rule (_IValue T_int) ]}).
Proof. split; vm_compute; reflexivity. Qed.

End EstablishWitnesses.

(** ** Documented behaviour that the code does not have *)

Section DefaultConstructor.

Context {World : Type}.

(** When the rule object has no rule for [__init__], the class attribute
    [__init__] of every class that is created is the constructor made by
    the metaclass, whatever the class body defines under that name. *)
Lemma default_init_installed st name base (namespace : gmap string (Entry World))
    r cls st' :
  name ≠ "BaseInterface" → base ≠ "BaseInterface" →
  bound_rule st name base = Some r →
  m r !! "__init__" = None →
  __new__ name [base] namespace st = (Ok cls, st') →
  cls !! "__init__" = Some default_init.
Proof.
  intros Hname Hbase Hr Hinit. unfold __new__.
  rewrite decide_False by done.
  rewrite decide_False by (intros ?%list_elem_of_singleton; congruence).
  destruct (_apply_rules_to_method_bound st name base (Raw <$> namespace) namespace r Hr)
    as [st1 ->].
  rewrite decide_True by done.
  pose proof (for_each_apply_rule name r namespace (map_to_list (m r)).*1
                (<["__init__" := default_init]> (Raw <$> namespace)) st1) as Hloop.
  destruct (first_defect r namespace (map_to_list (m r)).*1).
  - rewrite Hloop. done.
  - destruct Hloop as (cls1 & -> & Hother). intros [= <- <-].
    rewrite Hother; [by rewrite lookup_insert_eq|].
    rewrite elem_of_keys, Hinit. by intros [? ?].
Qed.

End DefaultConstructor.

(** C3: the example of the module documentation.  [IPort] has no rule for
    [__init__] and [YourPort] defines a constructor that sets [name] to
    ['NOT_SET'].  Creating [YourPort] succeeds, but its [__init__] is the
    constructor made by the metaclass, not the one of the class body; a new
    instance therefore has an empty [__dict__], and reading [name] gives the
    empty string, where the documentation shows ['NOT_SET']. *)
Theorem C3_own_constructor_replaced :
  AttrExample.YourPort_namespace !! "__init__"
  = Some (Function AttrExample.YourPort_init)
  ∧ (∃ cls, AttrExample.YourPort_declared.1 = Ok cls
            ∧ cls !! "__init__" = Some default_init)
  ∧ __getattr__ AttrExample.no_user_class AttrExample.YourPort_registry AttrExample.uPort "name"
    = (Ok (VStr ""), mkInstance "YourPort" {[ "name" := VStr "" ]}).
Proof.
  split; [vm_compute; reflexivity|]. split.
  - eexists. split; vm_compute; reflexivity.
  - vm_compute. reflexivity.
Qed.

(** C5: [IShape] declared with the attribute [area], then declared again
    with the method [area].  The second declaration succeeds, and the rule
    object of [IShape] then has [area] among its method rules and among its
    property rules. *)
Theorem C5_method_and_property_overlap :
  ∃ cls r, RedeclareExample.declared_twice.1 = Ok cls
           ∧ rules_of RedeclareExample.declared_twice.2 "IShape" = Some r
           ∧ m r !! "area" = Some (mkIFunction [] (_IValue T_NoneType))
           ∧ p r !! "area" = Some (Rule (_IValue T_int)).
Proof.
  do 2 eexists. split_and!; vm_compute; reflexivity.
Qed.

(** * Further properties of the module *)

(** ** Rules *)

Lemma py_eq_refl : ∀ v, py_eq v v = true.
Proof.
  fix IH 1. intros [|b|z|z|s|l|t|c a|c a]; simpl; unfold py_eq_atom; simpl;
    rewrite ?bool_decide_eq_true_2; try done.
  induction l as [|x l IHl]; [done|]. by rewrite IH, IHl.
Qed.

(** X1: an [IList] rule passes exactly the lists all of whose elements have
    the type of the rule, the empty list among them; whoever asks. *)
Theorem X1_IList_passes_typed_lists T f v :
  validate (IList T) f v = Ok tt
  ↔ ∃ els, v = VList els ∧ Forall (λ el, type_of el = T) els.
Proof.
  assert (Hels : ∀ els, validate_each T f els = Ok tt
                        ↔ Forall (λ el, type_of el = T) els).
  { induction els as [|el els IH]; simpl; [by split; [constructor|]|].
    unfold _IValue_validate at 1. case_decide as Hel.
    - split; [done|]. inversion 1; simplify_eq.
    - rewrite IH. split; [by constructor|by inversion 1]. }
  simpl. unfold IList_validate. split.
  - destruct v; try done. intros ?%Hels. eauto.
  - intros (els & -> & ?). by apply Hels.
Qed.

(** The empty list passes [IList(int)]. *)
Lemma X1_witness : validate (IList T_int) (ctx_name "ports") (VList []) = Ok tt.
Proof.
  apply (proj2 (X1_IList_passes_typed_lists T_int (ctx_name "ports") (VList []))).
  exists []. split; [reflexivity|constructor].
Defined.

(** X2: every option an [IOption] rule lists is accepted by the rule. *)
Theorem X2_IOption_accepts_its_options opts f v :
  v ∈ opts → validate (IOption opts) f v = Ok tt.
Proof.
  intros Hv. simpl. unfold IOption_validate, py_in.
  assert (existsb (py_eq v) opts = true) as ->; [|done].
  apply existsb_exists. exists v. split; [by apply list_elem_of_In|apply py_eq_refl].
Qed.

Lemma X2_witness :
  validate (IOption [VStr "ftp"; VStr "http"]) (ctx_name "port_type") (VStr "http")
  = Ok tt.
Proof.
  apply (X2_IOption_accepts_its_options [VStr "ftp"; VStr "http"]
           (ctx_name "port_type") (VStr "http")).
  apply list_elem_of_further, list_elem_of_here.
Defined.

(** ** Attribute access *)

Section MoreAttributeHooks.

Variable construct : PyType → Result Value.
Implicit Types (st : Registry) (self : Instance).

(** X3: assigning to an attribute with an [IList] rule.  A value that is
    not a list never yields the module's own error: [IList.validate] hands
    the attribute name to [InterfaceValueError] as if it were a function,
    and building the message fails with [AttributeError].  A list with an
    element of another type raises [InterfaceValueError].  The instance is
    unchanged in both cases. *)
Theorem X3_IList_attribute_rejections st self name T value r :
  inst_cls_of st (__class__ self) = Some r →
  p r !! name = Some (Rule (IList T)) →
  (type_of value ≠ T_list →
   __setattr__ st self name value
   = (Raise (mkExn AttributeError None req_other), self))
  ∧ (∀ els, value = VList els → ¬ Forall (λ el, type_of el = T) els →
     __setattr__ st self name value
     = (Raise (mkExn InterfaceValueError None (req_type T)), self)).
Proof.
  intros Hr Hp. unfold __setattr__. rewrite Hr, Hp. split.
  - intros Hty. by destruct value.
  - intros els -> Hels. simpl.
    assert (validate_each T (ctx_name name) els
            = Raise (mkExn InterfaceValueError None (req_type T))) as ->; [|done].
    induction els as [|el els IH]; simpl.
    + destruct Hels. constructor.
    + unfold _IValue_validate at 1. case_decide as Hel; [done|].
      apply IH. intros Hrest. apply Hels. by constructor.
Qed.

(** X4: an assignment either succeeds, and then reading the name gives
    the value assigned while the class and every other attribute of the
    instance are as before, or it raises and leaves the instance as it
    was. *)
Theorem X4_assignment_all_or_nothing st self name value :
  match __setattr__ st self name value with
  | (Ok _, self') =>
      __getattr__ construct st self' name = (Ok value, self')
      ∧ __class__ self' = __class__ self
      ∧ ∀ other, other ≠ name → __dict__ self' !! other = __dict__ self !! other
  | (Raise _, self') => self' = self
  end.
Proof.
  assert (Hset : ∀ self',
            self' = mkInstance (__class__ self) (<[name := value]> (__dict__ self)) →
            __getattr__ construct st self' name = (Ok value, self')
            ∧ __class__ self' = __class__ self
            ∧ ∀ other, other ≠ name → __dict__ self' !! other = __dict__ self !! other).
  { intros self' ->. unfold __getattr__. simpl. rewrite lookup_insert_eq.
    split_and!; try done. intros other Hne. by rewrite lookup_insert_ne. }
  unfold __setattr__.
  destruct (inst_cls_of st (__class__ self)) as [r|]; [|done].
  destruct (p r !! name) as [[c|v0]|]; [|done|by apply Hset].
  destruct (validate c (ctx_name name) value); [by apply Hset|done].
Qed.

(** X5: the hooks keep the [__dict__] of an instance within the property
    rules of its class: if every stored value respects the rules before an
    assignment or a read, so does every stored value afterwards, whether the
    operation succeeds or raises. *)
Theorem X5_hooks_keep_rules st self r :
  constructs_instances construct →
  inst_cls_of st (__class__ self) = Some r →
  respects_rules r (__dict__ self) →
  (∀ name value, respects_rules r (__dict__ (__setattr__ st self name value).2))
  ∧ (∀ name, respects_rules r (__dict__ (__getattr__ construct st self name).2)).
Proof.
  intros Hconstruct Hr Hself.
  assert (Hstore : ∀ name v,
            match p r !! name with
            | Some (Rule c) => validate c (ctx_name name) v = Ok tt
            | Some (Plain v0) => v = v0
            | None => True
            end →
            respects_rules r (<[name := v]> (__dict__ self))).
  { intros name v Hv n w. destruct (decide (n = name)) as [->|Hne].
    - rewrite lookup_insert_eq. by intros [= <-].
    - rewrite lookup_insert_ne by done. apply Hself. }
  split.
  - intros name value. specialize (Hstore name). unfold __setattr__. rewrite Hr.
    destruct (p r !! name) as [[c|v0]|] eqn:Hp; simpl; try done.
    + destruct (validate c (ctx_name name) value) as [[]|e] eqn:Hv; simpl; [|done].
      by apply Hstore.
    + by apply Hstore.
  - intros name. specialize (Hstore name). unfold __getattr__.
    destruct (__dict__ self !! name); [done|]. rewrite Hr.
    destruct (p r !! name) as [[[T|T|opts]|v0]|] eqn:Hp; simpl; try done.
    + destruct (call_type construct T) as [v|e] eqn:Hcall; simpl; [|done].
      apply Hstore. apply _IValue_validate_Ok.
      destruct T; simpl in Hcall; try (by injection Hcall as <-); try done;
        by apply Hconstruct.
    + by apply Hstore.
Qed.

End MoreAttributeHooks.

Module MoreAttributeWitnesses.

(** [portMgr.ports = 5] and [portMgr.ports = [1, 'a']]. *)
Lemma X3_witness :
  __setattr__ ExtraExample.PortMgr_registry ExtraExample.portMgr "ports" (VInt 5)
  = (Raise (mkExn AttributeError None req_other), ExtraExample.portMgr)
  ∧ __setattr__ ExtraExample.PortMgr_registry ExtraExample.portMgr "ports"
                (VList [VInt 1; VStr "a"])
    = (Raise (mkExn InterfaceValueError None (req_type T_int)), ExtraExample.portMgr).
Proof.
  split.
  - refine (proj1 (X3_IList_attribute_rejections ExtraExample.PortMgr_registry
                     ExtraExample.portMgr "ports" T_int (VInt 5)
                     ExtraExample.PortMgr_rule _ _) _).
    + vm_compute. reflexivity.
    + vm_compute. reflexivity.
    + discriminate.
  - refine (proj2 (X3_IList_attribute_rejections ExtraExample.PortMgr_registry
                     ExtraExample.portMgr "ports" T_int (VList [VInt 1; VStr "a"])
                     ExtraExample.PortMgr_rule _ _) [VInt 1; VStr "a"] _ _).
    + vm_compute. reflexivity.
    + vm_compute. reflexivity.
    + reflexivity.
    + intros H. inversion H as [|? ? _ Hrest]. inversion Hrest as [|? ? Hstr _].
      discriminate Hstr.
Defined.

(** [conn.port_type = 'ftp'] on a fresh [Conn]. *)
Lemma X4_witness :
  match __setattr__ FixedExample.Conn_registry FixedExample.conn "port_type"
                    (VStr "ftp") with
  | (Ok _, self') =>
      __getattr__ AttrExample.no_user_class FixedExample.Conn_registry self'
                  "port_type" = (Ok (VStr "ftp"), self')
      ∧ __class__ self' = __class__ FixedExample.conn
      ∧ ∀ other, other ≠ "port_type" →
                 __dict__ self' !! other = __dict__ FixedExample.conn !! other
  | (Raise _, self') => self' = FixedExample.conn
  end.
Proof.
  exact (X4_assignment_all_or_nothing AttrExample.no_user_class
           FixedExample.Conn_registry FixedExample.conn "port_type" (VStr "ftp")).
Defined.

(** Reading and assigning [version] and [port_type] on a [Conn] whose
    [port_type] is ['ftp']. *)
Lemma X5_witness :
  (∀ name value,
     respects_rules ExtraExample.Conn_rule
       (__dict__ (__setattr__ FixedExample.Conn_registry ExtraExample.conn_ftp
                              name value).2))
  ∧ (∀ name,
       respects_rules ExtraExample.Conn_rule
         (__dict__ (__getattr__ AttrExample.no_user_class FixedExample.Conn_registry
                                ExtraExample.conn_ftp name).2)).
Proof.
  apply (X5_hooks_keep_rules AttrExample.no_user_class FixedExample.Conn_registry
           ExtraExample.conn_ftp).
  - intros c v. discriminate.
  - vm_compute. reflexivity.
  - intros name v.
    destruct (decide (name = "port_type")) as [->|Hne].
    + intros Hv. vm_compute in Hv. injection Hv as <-. vm_compute. reflexivity.
    + unfold ExtraExample.conn_ftp. simpl. rewrite lookup_singleton_ne by done.
      discriminate.
Defined.

End MoreAttributeWitnesses.

(** ** The call wrapper *)

Section MoreWrapper.

Context {World : Type}.
Implicit Types (f : function World) (w : World).

(** X6: when a call of a contracted method returns normally, every
    positional argument paired with an input rule has passed it, the value
    returned is the one the body returned, in the world the body left, and
    that value has passed the output rule. *)
Theorem X6_normal_return_is_checked f rule c args kwrd w v w' :
  contracted f rule c →
  new_f f args kwrd w = (Ok v, w') →
  inputs_pass f rule args
  ∧ call f args kwrd w = (Ok v, w')
  ∧ validate (OUT rule) (as_ctx f) v = Ok tt.
Proof.
  intros [Hrule Hcls]. unfold new_f, inputs_pass, as_ctx. rewrite Hrule, Hcls.
  destruct (check_inputs _ _) as [[]|e] eqn:Hin; [|done].
  apply check_inputs_Ok in Hin.
  destruct (call f args kwrd w) as [[result|e] w1]; [|done].
  unfold check_output.
  destruct (validate (OUT rule) _ result) as [[]|e] eqn:Hout.
  - by intros [= <- <-].
  - by destruct (issubclass _ _).
Qed.

Lemma zip_app_longer {A B} (l : list A) (k k' : list B) :
  (length l ≤ length k)%nat → zip l (k ++ k') = zip l k.
Proof.
  revert k. induction l as [|x l IH]; intros [|y k] Hlen; simpl in *;
    try done; try lia.
  f_equal. apply IH. lia.
Qed.

(** X7: the input loop goes no further than the shorter of the rules and
    the positional arguments.  Arguments after the last declared parameter
    are handed to the body unchecked, and a call that passes only the
    receiver always reaches the body. *)
Theorem X7_unpaired_arguments_unchecked f rule c kwrd w :
  contracted f rule c →
  (∀ args extra,
     inputs_pass f rule args →
     (length (IN rule) ≤ length (tail args))%nat →
     new_f f (args ++ extra) kwrd w
     = after_body f rule (call f (args ++ extra) kwrd w))
  ∧ (∀ self, new_f f [self] kwrd w = after_body f rule (call f [self] kwrd w)).
Proof.
  intros Hc. split.
  - intros args extra Hin Hlen.
    apply (new_f_inputs_pass _ _ _ _ _ _ Hc). unfold inputs_pass in *.
    destruct args as [|self args]; simpl in *.
    + destruct (IN rule); simpl in *; [constructor|lia].
    + rewrite zip_app_longer; [done|]. by rewrite length_fmap.
  - intros self. apply (new_f_inputs_pass _ _ _ _ _ _ Hc).
    unfold inputs_pass. simpl. by rewrite zip_with_nil_r.
Qed.

End MoreWrapper.

Module MoreWrapperWitnesses.
Import PortExample.

(** [set_port(5)] returns [None]. *)
Lemma X6_witness :
  inputs_pass bound_set_port set_port_rule [self; VInt 5]
  ∧ call bound_set_port [self; VInt 5] ∅ ∅ = (Ok VNone, {["_port_id" := VInt 5]})
  ∧ validate (OUT set_port_rule) (as_ctx bound_set_port) VNone = Ok tt.
Proof.
  apply (X6_normal_return_is_checked bound_set_port set_port_rule "MyPort"
           [self; VInt 5] ∅ ∅ VNone {["_port_id" := VInt 5]}).
  - split; reflexivity.
  - vm_compute. reflexivity.
Defined.

(** [set_port(5, 'junk')]: the second argument is not looked at. *)
Lemma X7_witness :
  new_f bound_set_port ([self; VInt 5] ++ [VStr "junk"]) ∅ ∅
  = after_body bound_set_port set_port_rule
      (call bound_set_port ([self; VInt 5] ++ [VStr "junk"]) ∅ ∅).
Proof.
  refine (proj1 (X7_unpaired_arguments_unchecked bound_set_port set_port_rule
                   "MyPort" ∅ ∅ _) [self; VInt 5] [VStr "junk"] _ _).
  - split; reflexivity.
  - repeat constructor.
  - simpl. lia.
Defined.

End MoreWrapperWitnesses.

(** ** Binding a concrete class, continued *)

Section MoreBinder.

Context {World : Type}.
Implicit Types (namespace : gmap string (Entry World)) (cls : gmap string (Attr World)).
Implicit Types (st : Registry) (r : IRule).

Lemma __new___concrete name bases namespace st :
  name ≠ "BaseInterface" → "BaseInterface" ∉ bases →
  __new__ name bases namespace st
  = _apply_rules_to_method name bases (Raw <$> namespace) namespace st.
Proof.
  intros Hname Hbases. unfold __new__. by rewrite !decide_False by done.
Qed.

Lemma not_elem_of_singleton_base (base : string) :
  base ≠ "BaseInterface" → "BaseInterface" ∉ [base].
Proof. intros Hbase ?%list_elem_of_singleton. congruence. Qed.




(** The class dictionary the loop of [_apply_rules_to_method] leaves. *)
Lemma for_each_apply_rule_Ok name r namespace ks : ∀ cls cls' st st',
  for_each (apply_rule name r namespace) cls ks st = (Ok cls', st') →
  ∀ k, cls' !! k
       = if decide (k ∈ ks) then
           match namespace !! k, m r !! k with
           | Some (Function f), Some rule => Some (Wrapper (attach name rule f))
           | _, _ => cls !! k
           end
         else cls !! k.
Proof.
  induction ks as [|k0 ks IH]; intros cls cls' st st'; cbn [for_each].
  - unfold mret, M_ret. intros [= <- <-] k.
    rewrite decide_False; [done|]. apply not_elem_of_nil.
  - unfold mbind, M_bind.
    destruct (apply_rule name r namespace cls k0 st) as [[cls1|e] st1] eqn:Hstep;
      [|done].
    intros Hrest k. rewrite (IH _ _ _ _ Hrest k). clear IH Hrest.
    assert (Hcls1 : cls1 !! k
                    = if decide (k = k0) then
                        match namespace !! k, m r !! k with
                        | Some (Function f), Some rule =>
                            Some (Wrapper (attach name rule f))
                        | _, _ => cls !! k
                        end
                      else cls !! k).
    { unfold apply_rule in Hstep. case_decide as Hk; [subst k|].
      - destruct (namespace !! k0) as [[f|o]|]; unfold_M; [|by simplify_eq|done].
        destruct (m r !! k0) as [rule|]; simpl in *; [|done].
        case_decide; [done|]. injection Hstep as <- <-. by rewrite lookup_insert_eq.
      - destruct (namespace !! k0) as [[f|o]|]; unfold_M; [|by simplify_eq|done].
        destruct (m r !! k0) as [rule|]; simpl in *; [|done].
        case_decide; [done|]. injection Hstep as <- <-. by rewrite lookup_insert_ne. }
    destruct (decide (k ∈ ks)) as [Hin|Hnin].
    + rewrite decide_True by (by right). rewrite Hcls1.
      case_decide; [|done].
      by destruct (namespace !! k) as [[f|o]|], (m r !! k).
    + rewrite Hcls1. destruct (decide (k = k0)) as [->|Hne].
      * rewrite decide_True by (by left). done.
      * rewrite decide_False; [done|]. by intros [?|?]%elem_of_cons.
Qed.

Lemma class_dictionary_after_binding st name base namespace r cls st' :
  name ≠ "BaseInterface" → base ≠ "BaseInterface" →
  bound_rule st name base = Some r →
  __new__ name [base] namespace st = (Ok cls, st') →
  ∀ k, cls !! k
       = match m r !! k, namespace !! k with
         | Some rule, Some (Function f) => Some (Wrapper (attach name rule f))
         | Some _, entry => Raw <$> entry
         | None, entry =>
             if decide (k = "__init__") then Some default_init else Raw <$> entry
         end.
Proof.
  intros Hname Hbase Hr. unfold __new__.
  rewrite decide_False by done.
  rewrite decide_False by (intros ?%list_elem_of_singleton; congruence).
  destruct (_apply_rules_to_method_bound st name base (Raw <$> namespace) namespace r Hr)
    as [st1 ->].
  intros Hloop k. rewrite (for_each_apply_rule_Ok _ _ _ _ _ _ _ _ Hloop k).
  destruct (m r !! k) as [rule|] eqn:Hk.
  - rewrite decide_True by (apply elem_of_keys; eauto).
    assert (Hraw : (if decide (m r !! "__init__" = None)
                    then <["__init__" := default_init]> (Raw <$> namespace)
                    else Raw <$> namespace) !! k = Raw <$> namespace !! k).
    { case_decide as Hinit; [|by rewrite lookup_fmap].
      rewrite lookup_insert_ne by congruence. by rewrite lookup_fmap. }
    rewrite Hraw. by destruct (namespace !! k) as [[f|o]|].
  - rewrite decide_False by (rewrite elem_of_keys, Hk; by intros [? ?]).
    destruct (decide (k = "__init__")) as [->|Hne].
    + rewrite decide_True by done. by rewrite lookup_insert_eq.
    + case_decide; [rewrite lookup_insert_ne by done|]; by rewrite lookup_fmap.
Qed.

(** X9: when creating a concrete class succeeds, its dictionary is the
    class body with every required method that the body defines as a
    function replaced by the wrapper of that function, to which the rule of
    the method and the name of the class are attached, and with [__init__]
    replaced by the constructor of the metaclass when there is no rule for
    [__init__]; every other entry is the one of the class body. *)
Theorem X9_class_dictionary_after_binding st name base namespace r cls st' :
  name ≠ "BaseInterface" → base ≠ "BaseInterface" →
  bound_rule st name base = Some r →
  __new__ name [base] namespace st = (Ok cls, st') →
  ∀ k, cls !! k
       = match m r !! k, namespace !! k with
         | Some rule, Some (Function f) => Some (Wrapper (attach name rule f))
         | Some _, entry => Raw <$> entry
         | None, entry =>
             if decide (k = "__init__") then Some default_init else Raw <$> entry
         end.
Proof. apply class_dictionary_after_binding. Qed.


(** X11: a class name is bound once.  When [inst_cls] already has the
    name of the class being created, the class is checked against the rule
    object bound to that name, and the base it names plays no role, even a
    base that is no interface at all. *)
Theorem X11_class_name_bound_once st name base base' namespace l :
  name ≠ "BaseInterface" → base ≠ "BaseInterface" → base' ≠ "BaseInterface" →
  inst_cls st !! name = Some l →
  __new__ name [base] namespace st = __new__ name [base'] namespace st.
Proof.
  intros Hname Hbase%not_elem_of_singleton_base Hbase'%not_elem_of_singleton_base Hl.
  rewrite !__new___concrete by done.
  unfold _apply_rules_to_method. unfold_M.
  destruct (decide (is_Some (inst_cls st !! name))) as [?|Hnone]; [done|].
  destruct Hnone. eauto.
Qed.

Lemma binding_touches_inst_cls_only st name bases namespace :
  name ≠ "BaseInterface" → "BaseInterface" ∉ bases →
  let st' := (__new__ name bases namespace st).2 in
  store st' = store st
  ∧ rules st' = rules st
  ∧ inst_cls st'
    = match inst_cls st !! name, bases with
      | None, [base] =>
          match rules st !! base with
          | Some l => <[name := l]> (inst_cls st)
          | None => inst_cls st
          end
      | _, _ => inst_cls st
      end.
Proof.
  intros Hname Hbases. rewrite __new___concrete by done.
  unfold _apply_rules_to_method. unfold_M.
  destruct bases as [|base [|base2 bases]]; simpl; [by destruct (inst_cls st !! name)| |
    by destruct (inst_cls st !! name)].
  assert (Hloop : ∀ r cls st1,
            (for_each (apply_rule name r namespace) cls (map_to_list (m r)).*1 st1).2
            = st1).
  { intros r cls st1.
    pose proof (for_each_apply_rule name r namespace (map_to_list (m r)).*1 cls st1) as H.
    destruct (first_defect _ _ _); [by rewrite H|]. by destruct H as (? & -> & _). }
  destruct (inst_cls st !! name) as [l|] eqn:Hl.
  - rewrite decide_True by eauto. simpl. unfold inst_cls_of. rewrite Hl.
    destruct (store st !! l) as [r|]; simpl; [|done]. by rewrite Hloop.
  - rewrite decide_False by (by intros [? ?]).
    destruct (rules st !! base) as [l|]; simpl; [|done].
    unfold inst_cls_of. simpl. rewrite lookup_insert_eq.
    destruct (store st !! l) as [r|]; simpl; [|done]. by rewrite Hloop.
Qed.


End MoreBinder.

Module MoreBinderWitnesses.
Import PortExample.


(** The complete [MyPort]: its [set_port] is the wrapper of the function
    of the body. *)
Lemma X9_witness :
  PortExample.MyPort_namespace !! "set_port" = Some (Function MyPort_set_port)
  ∧ (default ∅ (match (__new__ "MyPort" ["IPort"] MyPort_namespace IPort_registry).1
                with Ok cls => Some cls | Raise _ => None end)) !! "set_port"
    = Some (Wrapper (attach "MyPort" set_port_rule MyPort_set_port)).
Proof.
  split; [vm_compute; reflexivity|].
  rewrite (X9_class_dictionary_after_binding IPort_registry "MyPort" "IPort"
             MyPort_namespace IPort_rule _ ExtraExample.MyPort_registry).
  - vm_compute. reflexivity.
  - discriminate.
  - discriminate.
  - vm_compute. reflexivity.
  - vm_compute. reflexivity.
Defined.


(** A second [MyPort], declared with a base that is no interface, after
    the first one was bound to [IPort]. *)
Lemma X11_witness :
  __new__ "MyPort" ["IPort"] incomplete_namespace ExtraExample.MyPort_registry
  = __new__ "MyPort" ["object"] incomplete_namespace ExtraExample.MyPort_registry.
Proof.
  apply (X11_class_name_bound_once ExtraExample.MyPort_registry "MyPort" "IPort"
           "object" incomplete_namespace 0%nat).
  - discriminate.
  - discriminate.
  - discriminate.
  - vm_compute. reflexivity.
Defined.


End MoreBinderWitnesses.

(** ** The registry across class creations *)

Section RegistryInvariants.

Context {World : Type}.
Implicit Types (namespace : gmap string (Entry World)) (cls : gmap string (Attr World)).
Implicit Types (st : Registry).

Lemma for_each_state_invariant {A B} (body : B → A → M B) (P : Registry → Prop) :
  (∀ acc x st, P st → P (body acc x st).2) →
  ∀ l acc st, P st → P (for_each body acc l st).2.
Proof.
  intros Hbody. induction l as [|x l IH]; intros acc st Hst; cbn [for_each].
  - done.
  - unfold mbind, M_bind. specialize (Hbody acc x st Hst).
    destruct (body acc x st) as [[acc'|e] st1]; simpl in *; [by apply IH|done].
Qed.

(** What one round of the loop of [_establish_rules] can change. *)
Lemma establish_entry_state name cls kv st :
  let st' := (establish_entry name cls kv st).2 in
  rules st' = rules st ∧ inst_cls st' = inst_cls st
  ∧ length (store st') = length (store st)
  ∧ ∀ l', rules st !! name ≠ Some l' → store st' !! l' = store st !! l'.
Proof.
  destruct kv as [k v]. unfold establish_entry. unfold_M.
  destruct (rules st !! name) as [l|]; simpl; [|done].
  destruct (store st !! l) as [r|]; simpl; [|done].
  case_decide; [done|].
  assert (Hput : ∀ r', length (<[l := r']> (store st)) = length (store st)
                       ∧ ∀ l', Some l ≠ Some l' →
                               <[l := r']> (store st) !! l' = store st !! l').
  { intros r'. split; [apply length_insert|].
    intros l' Hne. apply list_lookup_insert_ne. congruence. }
  destruct v as [f|o].
  - destruct (_IFunction f); simpl; [|done]. by destruct (Hput (mkIRule (<[k:=a]> (m r)) (p r))).
  - destruct (negb _); simpl; [|done].
    by destruct (Hput (mkIRule (m r) (<[k:=as_property_rule o]> (p r)))).
Qed.

(** What [_establish_rules] can change, whether it succeeds or not. *)
Lemma _establish_rules_state name cls namespace st :
  let st' := (_establish_rules name cls namespace st).2 in
  inst_cls st' = inst_cls st
  ∧ (rules st' = rules st ∧ length (store st') = length (store st)
     ∨ rules st !! name = None
       ∧ rules st' = <[name := length (store st)]> (rules st)
       ∧ length (store st') = S (length (store st)))
  ∧ ∀ l', (l' < length (store st))%nat → rules st !! name ≠ Some l' →
          store st' !! l' = store st !! l'.
Proof.
  unfold _establish_rules. unfold_M.
  set (st1 := if decide (is_Some (rules st !! name)) then st
              else mkRegistry (store st ++ [mkIRule ∅ ∅])
                              (<[name := length (store st)]> (rules st))
                              (inst_cls st)).
  assert (Hloop :
    let st' := (for_each (establish_entry name) cls (map_to_list namespace) st1).2 in
    rules st' = rules st1 ∧ inst_cls st' = inst_cls st1
    ∧ length (store st') = length (store st1)
    ∧ ∀ l', rules st1 !! name ≠ Some l' → store st' !! l' = store st1 !! l').
  { apply (for_each_state_invariant (establish_entry name)
             (λ st', rules st' = rules st1 ∧ inst_cls st' = inst_cls st1
                     ∧ length (store st') = length (store st1)
                     ∧ ∀ l', rules st1 !! name ≠ Some l' →
                             store st' !! l' = store st1 !! l')); [|done].
    intros acc x st2 (Hr & Hi & Hlen & Hst).
    destruct (establish_entry_state name acc x st2) as (Hr' & Hi' & Hlen' & Hst').
    split_and!; try congruence.
    intros l' Hl'. rewrite Hst' by (by rewrite Hr). by apply Hst. }
  destruct Hloop as (Hr & Hi & Hlen & Hst). subst st1.
  case_decide as Hhas; simpl in *.
  - split_and!; [done|by left|]. intros l' _ Hl'. by apply Hst.
  - rewrite lookup_insert_eq in Hst. rewrite length_app in Hlen. simpl in Hlen.
    split_and!; [done| |].
    + right. split_and!; [|done|lia]. by apply eq_None_not_Some.
    + intros l' Hlt _. rewrite Hst by (intros [= <-]; lia).
      by apply lookup_app_l.
Qed.

(** What a class creation can change in the registry. *)
Lemma __new___state name bases namespace st :
  let st' := (__new__ name bases namespace st).2 in
  (rules st' = rules st ∧ length (store st') = length (store st)
   ∨ rules st !! name = None
     ∧ rules st' = <[name := length (store st)]> (rules st)
     ∧ length (store st') = S (length (store st)))
  ∧ (inst_cls st' = inst_cls st
     ∨ ∃ l base, inst_cls st !! name = None ∧ rules st !! base = Some l
                 ∧ inst_cls st' = <[name := l]> (inst_cls st))
  ∧ ∀ l', (l' < length (store st))%nat → rules st !! name ≠ Some l' →
          store st' !! l' = store st !! l'.
Proof.
  destruct (decide (name = "BaseInterface")) as [Hname|Hname].
  { unfold __new__. rewrite decide_True by done. unfold_M. split_and!; auto. }
  destruct (decide ("BaseInterface" ∈ bases)) as [Hbases|Hbases].
  - unfold __new__. rewrite decide_False, decide_True by done.
    destruct (_establish_rules_state name (Raw <$> namespace) namespace st)
      as (Hi & Hr & Hst).
    split_and!; auto.
  - destruct (binding_touches_inst_cls_only st name bases namespace Hname Hbases)
      as (Hs & Hr & Hi).
    simpl. rewrite Hs, Hr, Hi. split_and!; auto.
    destruct (inst_cls st !! name) eqn:Hn; [by left|].
    destruct bases as [|base [|? ?]]; [by left| |by left].
    destruct (rules st !! base) as [l|] eqn:Hb; [|by left].
    right. eauto.
Qed.

End RegistryInvariants.

Section RegistryProperties.

Context {World : Type}.
Implicit Types (namespace : gmap string (Entry World)) (st : Registry).

Lemma registry_wf_empty : registry_wf empty_registry.
Proof. split_and!; intros ? ?; simpl; by rewrite ?lookup_empty. Qed.

Lemma registry_wf___new__ st name bases namespace :
  registry_wf st → registry_wf (__new__ name bases namespace st).2.
Proof.
  intros (Hrules & Hinst & Hinj).
  destruct (__new___state name bases namespace st) as (Hr & Hi & _).
  set (st' := (__new__ name bases namespace st).2) in *.
  assert (Hlen : (length (store st) ≤ length (store st'))%nat).
  { destruct Hr as [[_ ->]|(_ & _ & ->)]; lia. }
  split_and!.
  - intros n l. destruct Hr as [[-> ->]|(Hnone & -> & ->)]; [by apply Hrules|].
    destruct (decide (n = name)) as [->|Hne].
    + rewrite lookup_insert_eq. intros [= <-]. lia.
    + rewrite lookup_insert_ne by done. intros ?%Hrules. lia.
  - intros n l. destruct Hi as [->|(l0 & base & Hnone & Hbase & ->)].
    + intros ?%Hinst. lia.
    + destruct (decide (n = name)) as [->|Hne].
      * rewrite lookup_insert_eq. intros [= <-]. apply Hrules in Hbase. lia.
      * rewrite lookup_insert_ne by done. intros ?%Hinst. lia.
  - intros n n' l. destruct Hr as [[-> _]|(Hnone & -> & _)]; [by apply Hinj|].
    destruct (decide (n = name)) as [->|Hn], (decide (n' = name)) as [->|Hn'];
      rewrite ?lookup_insert_eq, ?lookup_insert_ne by done; try done.
    + intros [= <-] ?%Hrules. lia.
    + intros ?%Hrules [= <-]. lia.
    + apply Hinj.
Qed.

(** X18: the registry stays well formed.  The empty registry is, and
    every class creation, successful or not, takes a well-formed registry
    to a well-formed one: the references of [rules] and [inst_cls] always
    point to rule objects, and two interface names never come to share a
    rule object. *)
Theorem X18_registry_stays_well_formed :
  registry_wf empty_registry
  ∧ ∀ st name bases namespace,
      registry_wf st → registry_wf (__new__ name bases namespace st).2.
Proof. split; [apply registry_wf_empty|apply registry_wf___new__]. Qed.

(** X19: in a well-formed registry, declaring an interface concerns the
    rule object of its name only: the rule set of every other interface
    name, and the rules of every class bound to another rule object, are
    the same before and after, whether the declaration succeeds or not. *)
Theorem X19_declaration_leaves_others st name bases namespace :
  registry_wf st →
  let st' := (__new__ name bases namespace st).2 in
  (∀ other, other ≠ name → rules_of st' other = rules_of st other)
  ∧ (∀ cn l, inst_cls st !! cn = Some l → rules st !! name ≠ Some l →
             inst_cls_of st' cn = inst_cls_of st cn).
Proof.
  intros (Hrules & Hinst & Hinj).
  destruct (__new___state name bases namespace st) as (Hr & Hi & Hst).
  simpl. set (st' := (__new__ name bases namespace st).2) in *. split.
  - intros other Hne. unfold rules_of.
    assert (rules st' !! other = rules st !! other) as ->.
    { destruct Hr as [[-> _]|(_ & -> & _)]; [done|]. by rewrite lookup_insert_ne. }
    destruct (rules st !! other) as [l|] eqn:Hl; [|done].
    apply Hst; [by eapply Hrules|]. intros Hname. by apply Hne, (Hinj _ _ l).
  - intros cn l Hcn Hl. unfold inst_cls_of.
    assert (inst_cls st' !! cn = Some l) as ->.
    { destruct Hi as [->|(l0 & base & Hnone & _ & ->)]; [done|].
      rewrite lookup_insert_ne; [done|]. congruence. }
    rewrite Hcn. apply Hst; [by eapply Hinst|done].
Qed.

(** X20: a concrete class does not get a copy of the rules of its
    interface, it shares the rule object.  Once a class name and an
    interface name refer to the same rule object they do so after every
    later class creation, so that whatever a later declaration under the
    interface name adds to the rule set also holds for the class and its
    instances. *)
Theorem X20_bound_class_shares_rules st cn iname l name bases namespace :
  inst_cls st !! cn = Some l →
  rules st !! iname = Some l →
  let st' := (__new__ name bases namespace st).2 in
  inst_cls_of st' cn = rules_of st' iname.
Proof.
  intros Hcn Hiname.
  destruct (__new___state name bases namespace st) as (Hr & Hi & _).
  simpl. set (st' := (__new__ name bases namespace st).2) in *.
  unfold inst_cls_of, rules_of.
  assert (inst_cls st' !! cn = Some l) as ->.
  { destruct Hi as [->|(l0 & base & Hnone & _ & ->)]; [done|].
    rewrite lookup_insert_ne; [done|]. congruence. }
  assert (rules st' !! iname = Some l) as ->; [|done].
  destruct Hr as [[-> _]|(Hnone & -> & _)]; [done|].
  rewrite lookup_insert_ne; [done|]. congruence.
Qed.

End RegistryProperties.

Module RegistryWitnesses.

(** Declaring [IPort] in the empty registry. *)
Lemma X18_witness : registry_wf PortExample.IPort_registry.
Proof.
  refine (proj2 (X18_registry_stays_well_formed (World := Storage))
                empty_registry "IPort" ["BaseInterface"] PortExample.IPort_namespace _).
  apply (proj1 (X18_registry_stays_well_formed (World := Storage))).
Defined.

(** Declaring [IConn] once [IPort] and [MyPort] exist. *)
Lemma X19_witness :
  let st' := (__new__ (World := unit) "IConn" ["BaseInterface"]
                FixedExample.IConn_namespace ExtraExample.MyPort_registry).2 in
  (∀ other, other ≠ "IConn" →
            rules_of st' other = rules_of ExtraExample.MyPort_registry other)
  ∧ (∀ cn l, inst_cls ExtraExample.MyPort_registry !! cn = Some l →
             rules ExtraExample.MyPort_registry !! "IConn" ≠ Some l →
             inst_cls_of st' cn = inst_cls_of ExtraExample.MyPort_registry cn).
Proof.
  apply (X19_declaration_leaves_others (World := unit) ExtraExample.MyPort_registry
           "IConn" ["BaseInterface"] FixedExample.IConn_namespace).
  unfold ExtraExample.MyPort_registry, PortExample.IPort_registry.
  apply registry_wf___new__, registry_wf___new__, registry_wf_empty.
Defined.

(** [MyPort] is bound to [IPort]; [IPort] is then declared a second time
    with the attributes [default] and [name]. *)
Lemma X20_witness :
  let st' := (__new__ "IPort" ["BaseInterface"] AttrExample.IPort_namespace
                ExtraExample.MyPort_registry).2 in
  inst_cls_of st' "MyPort" = rules_of st' "IPort".
Proof.
  apply (X20_bound_class_shares_rules ExtraExample.MyPort_registry "MyPort" "IPort"
           0%nat "IPort" ["BaseInterface"] AttrExample.IPort_namespace).
  - vm_compute. reflexivity.
  - vm_compute. reflexivity.
Defined.

End RegistryWitnesses.

(** ** Compiling an interface *)

Section MoreEstablish.

Context {World : Type}.
Implicit Types (namespace : gmap string (Entry World)) (cls : gmap string (Attr World)).
Implicit Types (st : Registry) (r : IRule) (obj : function World).

(** X14: the parameter rules of a method are built from the front.  The
    i-th input rule carries the i-th parameter name after the receiver and
    is made from the i-th default, although Python attaches defaults to the
    last parameters; parameters beyond the number of defaults get no rule. *)
Theorem X14_defaults_paired_from_the_front obj rule :
  _IFunction obj = Ok rule →
  Forall2 (λ (nc : string * Constraint) (nv : string * PyObj),
             nc.1 = nv.1 ∧ as_input_rule nv.2 = Some nc.2)
          (IN rule)
          (zip (tail (co_args obj)) (default [] (func_defaults obj))).
Proof.
  assert (Hwrap : ∀ args IN_,
            wrap_IN args = Ok IN_ →
            Forall2 (λ (nc : string * Constraint) (nv : string * PyObj),
                       nc.1 = nv.1 ∧ as_input_rule nv.2 = Some nc.2) IN_ args).
  { induction args as [|[arg v] args IH]; intros IN_.
    - intros [= <-]. constructor.
    - rewrite wrap_IN_cons. destruct (as_input_rule v) as [c|] eqn:Hv; [|done].
      destruct (wrap_IN args) as [rest|e]; [|done].
      intros [= <-]. constructor; [done|by apply IH]. }
  unfold _IFunction, _get_args.
  destruct (tail (co_args obj)) as [|a names].
  - intros [= <-]. constructor.
  - destruct (func_defaults obj) as [vals|]; [|done]. simpl.
    destruct (wrap_IN _) as [IN_|e] eqn:HIN; [|done].
    intros [= <-]. simpl. by apply Hwrap.
Qed.

(** A bare type is a type object that is not a class made by the
    metaclass: [type(v) == type]. *)
Lemma bare_type_spec (v : PyObj) t :
  bare_type v = Some t ↔ v = Plain (VType t) ∧ ∀ c, t ≠ T_iclass c.
Proof.
  unfold bare_type. split.
  - destruct v as [?|[]]; try done. case_decide as Ht; [|done].
    intros [= ->]. split; [done|]. by intros c ->.
  - intros [-> Ht]. rewrite decide_True; [done|].
    destruct t; try done. by destruct (Ht name).
Qed.

Lemma as_input_rule_spec (v : PyObj) :
  is_Some (as_input_rule v)
  ↔ (∃ t, v = Plain (VType t) ∧ ∀ c, t ≠ T_iclass c)
    ∨ (∃ T, v = Rule (IList T)) ∨ (∃ opts, v = Rule (IOption opts)).
Proof.
  unfold as_input_rule. destruct (bare_type v) as [t|] eqn:Hv.
  - apply bare_type_spec in Hv. split; [|by eauto]. intros _. left. eauto.
  - split.
    + destruct v as [[| |]|]; try by intros [? ?]. all: eauto.
    + intros [(t & -> & Ht)|[[T ->]|[opts ->]]]; [|by eauto..].
      assert (bare_type (Plain (VType t)) = Some t) by (by apply bare_type_spec).
      congruence.
Qed.

Lemma as_property_rule_spec (o : PyObj) :
  as_property_rule o = match o with
                       | Plain (VType (T_iclass c)) => o
                       | Plain (VType t) => Rule (_IValue t)
                       | _ => o
                       end.
Proof. unfold as_property_rule. by destruct o as [?|[| | | | | |[]| |]]. Qed.

Lemma wrap_IN_Ok_iff (args : list (string * PyObj)) :
  (∃ IN_, wrap_IN args = Ok IN_) ↔ Forall (λ nv, is_Some (as_input_rule nv.2)) args.
Proof.
  induction args as [|[arg v] args IH].
  - split; [constructor|by eauto].
  - rewrite wrap_IN_cons. split.
    + intros [IN_ H]. destruct (as_input_rule v) as [c|] eqn:Hv; [|done].
      constructor; [simpl; rewrite Hv; by eauto|]. apply IH.
      destruct (wrap_IN args); [eauto|done].
    + inversion 1 as [|? ? [c Hc] Hrest]; subst. simpl in Hc. rewrite Hc.
      apply IH in Hrest as [rest ->]. eauto.
Qed.

(** X15: an interface method compiles exactly when it has no parameter
    besides the receiver, or it has defaults and each default that is paired
    with a parameter is a bare type, an [IList] or an [IOption].  With
    parameters and no default at all the failure is a [TypeError]; with a
    default of another kind (an [_IValue] object included) it is an
    [InterfaceError].  A bare type is a type object whose type is [type],
    which a class made by the metaclass is not. *)
Theorem X15_method_compiles_iff obj :
  (((∃ rule, _IFunction obj = Ok rule)
   ↔ tail (co_args obj) = []
     ∨ ∃ vals, func_defaults obj = Some vals
               ∧ Forall (λ nv : string * PyObj, is_Some (as_input_rule nv.2))
                        (zip (tail (co_args obj)) vals))
   ∧ (∀ e, _IFunction obj = Raise e →
         exc_class e = match func_defaults obj with
                       | Some _ => InterfaceError
                       | None => TypeError
                       end))
  ∧ ∀ v : PyObj,
      is_Some (as_input_rule v)
      ↔ (∃ t, v = Plain (VType t) ∧ ∀ c, t ≠ T_iclass c)
        ∨ (∃ T, v = Rule (IList T)) ∨ (∃ opts, v = Rule (IOption opts)).
Proof.
  split; [|apply as_input_rule_spec].
  unfold _IFunction, _get_args.
  destruct (tail (co_args obj)) as [|a names] eqn:Hnames.
  - split; [|done]. split; eauto.
  - destruct (func_defaults obj) as [vals|].
    + split.
      * split.
        -- intros [rule H]. right. exists vals. split; [done|].
           apply wrap_IN_Ok_iff. destruct (wrap_IN _) as [IN_|e]; [eauto|done].
        -- intros [?|(vals' & [= <-] & HF)]; [done|].
           apply wrap_IN_Ok_iff in HF as [IN_ HIN]. rewrite HIN. eauto.
      * intros e. destruct (wrap_IN _) as [IN_|e'] eqn:HIN; [done|].
        intros [= <-]. clear -HIN. revert e' HIN.
        generalize (zip (a :: names) vals). intros args.
        induction args as [|[arg v] args IH]; intros e'; [done|].
        rewrite wrap_IN_cons. destruct (as_input_rule v); [|by intros [= <-]].
        destruct (wrap_IN args) as [rest|e0]; [done|].
        intros [= <-]. by apply IH.
    + split; [|by intros e [= <-]].
      split; [by intros [? ?]|]. by intros [?|(? & ? & _)].
Qed.

(** X16: [returns] accepts as a return type exactly what [_IFunction]
    accepts as a parameter default.  A decorated method compiles when the
    undecorated one does, to the same input rules, with the decoration as
    its output rule; any other argument of [returns] raises
    [InterfaceOutputValueError].  So a type object that is not a class made
    by the metaclass is accepted, as an [_IValue], and a class made by the
    metaclass is refused. *)
Theorem X16_returns_then_compile rtype obj :
  (match as_input_rule rtype with
  | Some c =>
      ∃ obj', returns rtype obj = Ok obj'
              ∧ _IFunction obj'
                = match _IFunction obj with
                  | Ok rule => Ok (mkIFunction (IN rule) c)
                  | Raise e => Raise e
                  end
  | None =>
      returns rtype obj
      = Raise (mkExn InterfaceOutputValueError None req_return_type_def)
  end)
  ∧ (∀ t, (∀ c, t ≠ T_iclass c) →
          ∃ obj', returns (Plain (VType t)) obj = Ok obj'
                  ∧ __returns__ obj' = Some (_IValue t))
  ∧ (∀ c, returns (Plain (VType (T_iclass c))) obj
          = Raise (mkExn InterfaceOutputValueError None req_return_type_def)).
Proof.
  split_and!; [| |done].
  2: { intros t Ht. unfold returns.
       rewrite (proj2 (bare_type_spec (Plain (VType t)) t)) by done. by eauto. }
  assert (Hset : ∀ c,
            _IFunction (mkFunction (__name__ obj) (co_args obj) (func_defaults obj)
                          (Some c) (__rule__ obj) (__bind_cls__ obj) (call obj))
            = match _IFunction obj with
              | Ok rule => Ok (mkIFunction (IN rule) c)
              | Raise e => Raise e
              end).
  { intros c. unfold _IFunction, _get_args. simpl.
    destruct (tail (co_args obj)); [done|].
    destruct (func_defaults obj); [|done]. by destruct (wrap_IN _). }
  unfold as_input_rule, returns.
  destruct (bare_type rtype) as [t|]; [by eauto|].
  destruct rtype as [[T|T|opts]|v]; by eauto.
Qed.


(** X13: the first declaration of an interface compiles its body entry by
    entry.  Each function becomes the method rule of its name; each other
    entry whose name does not start with two underscores becomes the
    property rule of its name (a bare type as an [_IValue], anything else
    as it is) and is removed from the class; entries whose name starts with
    two underscores give no rule and stay in the class.  A bare type is a
    type object whose type is [type]: a class made by the metaclass is kept
    as the plain value it is. *)
Theorem X13_first_declaration_compiles_body st name bases namespace cls st' :
  name ≠ "BaseInterface" → "BaseInterface" ∈ bases →
  rules st !! name = None →
  __new__ name bases namespace st = (Ok cls, st') →
  (∃ r', rules_of st' name = Some r'
    ∧ ∀ k,
        m r' !! k = match namespace !! k with
                    | Some (Function f) =>
                        match _IFunction f with
                        | Ok rule => Some rule
                        | Raise _ => None
                        end
                    | _ => None
                    end
        ∧ p r' !! k = match namespace !! k with
                      | Some (Object o) =>
                          if String.prefix "__" k then None
                          else Some (as_property_rule o)
                      | _ => None
                      end
        ∧ cls !! k = match namespace !! k with
                     | Some (Object o) =>
                         if String.prefix "__" k then Some (Raw (Object o))
                         else None
                     | entry => Raw <$> entry
                     end)
  ∧ ∀ o, as_property_rule o = match o with
                              | Plain (VType (T_iclass c)) => o
                              | Plain (VType t) => Rule (_IValue t)
                              | _ => o
                              end.
Proof.
  intros Hname Hbases Hnew Hrun. split; [|apply as_property_rule_spec].
  revert Hrun. unfold __new__.
  rewrite decide_False, decide_True by done.
  destruct (_establish_rules_loop name (Raw <$> namespace) namespace st)
    as (st1 & -> & _ & [l Hl] & Hfresh).
  specialize (Hfresh Hnew). unfold rules_of in Hfresh. rewrite Hl in Hfresh.
  intros Hrun.
  destruct (proj1 (for_each_establish _ _ _ _ _ _ _ _ Hl Hfresh) Hrun)
    as (r' & Hloop & ->).
  exists r'. split.
  { unfold rules_of. simpl. rewrite Hl.
    apply list_lookup_insert_eq. by eapply lookup_lt_Some. }
  pose proof (establish_loop_closed _ _ _ _ _ (NoDup_fst_map_to_list namespace) Hloop)
    as Hclosed.
  rewrite list_to_map_to_list in Hclosed.
  intros k. destruct (Hclosed k) as (-> & -> & -> & _).
  unfold m_after, p_after, cls_after, written_property. simpl.
  rewrite !lookup_empty, lookup_fmap.
  destruct (namespace !! k) as [[f|o]|]; simpl; try done.
  by destruct (String.prefix "__" k).
Qed.

End MoreEstablish.

Module MoreEstablishWitnesses.

(** [def move(self, x, y = int)]: the rule made from [int] goes to [x]. *)
Lemma X14_witness :
  Forall2 (λ (nc : string * Constraint) (nv : string * PyObj),
             nc.1 = nv.1 ∧ as_input_rule nv.2 = Some nc.2)
          [("x", _IValue T_int)]
          (zip ["x"; "y"] [Plain (VType T_int)]).
Proof.
  apply (X14_defaults_paired_from_the_front ExtraExample.move
           (mkIFunction [("x", _IValue T_int)] (_IValue T_NoneType))).
  reflexivity.
Defined.

Lemma X15_witness :
  ((∃ rule, _IFunction ExtraExample.move = Ok rule)
   ↔ tail (co_args ExtraExample.move) = []
     ∨ ∃ vals, func_defaults ExtraExample.move = Some vals
               ∧ Forall (λ nv : string * PyObj, is_Some (as_input_rule nv.2))
                        (zip (tail (co_args ExtraExample.move)) vals))
  ∧ ∀ e, _IFunction ExtraExample.move = Raise e →
         exc_class e = match func_defaults ExtraExample.move with
                       | Some _ => InterfaceError
                       | None => TypeError
                       end.
Proof. exact (proj1 (X15_method_compiles_iff ExtraExample.move)). Defined.

(** [returns(int)] on [get_port]. *)
Lemma X16_witness :
  ∃ obj', returns (Plain (VType T_int)) PortExample.IPort_get_port_undecorated
          = Ok obj'
          ∧ _IFunction obj'
            = match _IFunction PortExample.IPort_get_port_undecorated with
              | Ok rule => Ok (mkIFunction (IN rule) (_IValue T_int))
              | Raise e => Raise e
              end.
Proof.
  exact (proj1 (X16_returns_then_compile (Plain (VType T_int))
                  PortExample.IPort_get_port_undecorated)).
Defined.


(** The [IPort] with the attributes [default] and [name]: both become
    property rules and leave the class. *)
Lemma X13_witness :
  ∃ r', rules_of AttrExample.IPort_declared.2 "IPort" = Some r'
    ∧ ∀ k,
        m r' !! k = match AttrExample.IPort_namespace !! k with
                    | Some (Function f) =>
                        match _IFunction f with
                        | Ok rule => Some rule
                        | Raise _ => None
                        end
                    | _ => None
                    end
        ∧ p r' !! k = match AttrExample.IPort_namespace !! k with
                      | Some (Object o) =>
                          if String.prefix "__" k then None
                          else Some (as_property_rule o)
                      | _ => None
                      end
        ∧ (∅ : gmap string (Attr Storage)) !! k
          = match AttrExample.IPort_namespace !! k with
            | Some (Object o) =>
                if String.prefix "__" k then Some (Raw (Object o))
                else None
            | entry => Raw <$> entry
            end.
Proof.
  refine (proj1 (X13_first_declaration_compiles_body empty_registry "IPort"
                   ["BaseInterface"] AttrExample.IPort_namespace ∅
                   AttrExample.IPort_declared.2 _ _ _ _)).
  - discriminate.
  - apply list_elem_of_here.
  - reflexivity.
  - vm_compute. reflexivity.
Defined.

End MoreEstablishWitnesses.
